(** * Keystatic admin UI: the singleton page

    Shallow embedding of [packages/keystatic/src/app/SingletonPage.tsx]:
    the draft reconciliation of [LocalSingletonPage], its autosave effect,
    the submit handlers of [SingletonPageInner], the seeding and reset of
    the collaborative document, and the [storedValSchema] validation of
    persisted drafts.

    React components are embedded as pure functions of their props and
    hook state; effects and event handlers return the new store or the
    list of calls they make. *)

From Stdlib Require Import ZArith.
From Stdlib.Strings Require Import Byte Ascii.
From stdpp Require Import gmap strings list fin_maps.

Local Open Scope string_scope.

(** ** JavaScript values *)

(** The values that reach the page untyped ([unknown] in the source): what
    IndexedDB hands back for a draft, and the field values of an entry.
    Numbers are restricted to the integers, which covers the version tag. *)
#[local] Set Warnings "-register-all".
Inductive unknown : Type :=
  | JUndefined
  | JNull
  | JBool (b : bool)
  | JNum (n : Z)
  | JStr (s : string)
  | JDate (time : option Z)            (* [None] is an Invalid Date *)
  | JUint8Array (bytes : list byte)
  | JArray (items : list unknown)
  | JMap (entries : list (unknown * unknown))
  | JObject (props : list (string * unknown)).
#[local] Set Warnings "register-all".

Fixpoint unknown_eq_dec (x y : unknown) {struct x} : {x = y} + {x <> y}.
Proof.
  decide equality.
  - apply bool_eq_dec.
  - apply Z.eq_dec.
  - apply String.string_dec.
  - decide equality. apply Z.eq_dec.
  - apply List.list_eq_dec. apply Byte.byte_eq_dec.
  - apply List.list_eq_dec. apply unknown_eq_dec.
  - apply List.list_eq_dec. intros [a b] [c d].
    destruct (unknown_eq_dec a c); [|right; congruence].
    destruct (unknown_eq_dec b d); [left|right]; congruence.
  - apply List.list_eq_dec. intros [a b] [c d].
    destruct (String.string_dec a c); [|right; congruence].
    destruct (unknown_eq_dec b d); [left|right]; congruence.
Defined.

#[global] Instance unknown_eq : EqDecision unknown := unknown_eq_dec.

(** [!v] is [negb (js_truthy v)]. *)
Definition js_truthy (v : unknown) : bool :=
  match v with
  | JUndefined | JNull => false
  | JBool b => b
  | JNum n => negb (n =? 0)%Z
  | JStr s => negb (bool_decide (s = ""))
  | _ => true
  end.

Definition is_nullish (v : unknown) : bool :=
  match v with
  | JUndefined | JNull => true
  | _ => false
  end.

(** [a ?? b] *)
Definition nullish_coalesce (a b : unknown) : unknown :=
  if is_nullish a then b else a.

(** [o[k]] on the property list of an object: [undefined] when absent. *)
Fixpoint get_prop (props : list (string * unknown)) (k : string) : unknown :=
  match props with
  | [] => JUndefined
  | (k', v) :: rest => if bool_decide (k' = k) then v else get_prop rest k
  end.

(** [Record<string, unknown>]: the value of an entry, one property per
    top-level field. *)
Abbreviation Value := (gmap string unknown).

Definition record_get (r : Value) (k : string) : unknown :=
  default JUndefined (r !! k).

(** [Map<string, Uint8Array>] *)
Abbreviation Files := (gmap string (list byte)).

(** [new Map(entries)]: the entries are set from first to last, so a later
    entry replaces an earlier one with the same key. *)
Definition js_new_map {A} (entries : list (string * A)) : gmap string A :=
  foldl (fun m kv => <[kv.1 := kv.2]> m) ∅ entries.

(** ** Results of code that may throw *)

Inductive Result (A : Type) : Type :=
  | Ok (a : A)
  | Throw (message : string).
Arguments Ok {A} a.
Arguments Throw {A} message.

#[global] Instance Result_bind : MBind Result := fun A B k r =>
  match r with
  | Ok a => k a
  | Throw m => Throw m
  end.

Definition is_ok {A} (r : Result A) : bool :=
  match r with Ok _ => true | Throw _ => false end.

(** ** Loads

    What a callback given to [useData] answers, [LOADING] or a value, and
    what the page reads from the load. *)

Inductive Loadable (A : Type) : Type :=
  | LOADING
  | Ready (a : A).
Arguments LOADING {A}.
Arguments Ready {A} a.

Inductive DataState (A : Type) : Type :=
  | kind_loading
  | kind_loaded (data : A)
  | kind_error (message : string).
Arguments kind_loading {A}.
Arguments kind_loaded {A} data.
Arguments kind_error {A} message.

(** ** [storedValSchema] *)

Record StoredVal := {
  version : Z;
  savedAt : Z;
  beforeTreeKey : option string;
  files : Files;
}.

(** [z.literal(1)] *)
Definition z_literal_1 (v : unknown) : Result Z :=
  match v with
  | JNum 1 => Ok 1%Z
  | _ => Throw "Invalid literal value, expected 1"
  end.

(** [z.date()] *)
Definition z_date (v : unknown) : Result Z :=
  match v with
  | JDate (Some t) => Ok t
  | JDate None => Throw "Invalid date"
  | _ => Throw "Expected date"
  end.

(** [z.string().optional()] *)
Definition z_string_optional (v : unknown) : Result (option string) :=
  match v with
  | JUndefined => Ok None
  | JStr s => Ok (Some s)
  | _ => Throw "Expected string"
  end.

Definition z_map_entry (kv : unknown * unknown) : Result (string * list byte) :=
  match kv with
  | (JStr k, JUint8Array c) => Ok (k, c)
  | (JStr _, _) => Throw "Input not instance of Uint8Array"
  | _ => Throw "Expected string"
  end.

Fixpoint z_map_entries (entries : list (unknown * unknown))
  : Result (list (string * list byte)) :=
  match entries with
  | [] => Ok []
  | kv :: rest =>
      e ← z_map_entry kv;
      es ← z_map_entries rest;
      Ok (e :: es)
  end.

(** [z.map(z.string(), z.instanceof(Uint8Array))] *)
Definition z_map_string_bytes (v : unknown) : Result Files :=
  match v with
  | JMap entries => es ← z_map_entries entries; Ok (js_new_map es)
  | _ => Throw "Expected map"
  end.

(** [storedValSchema.parse(raw)]: a [z.object] of the four fields; keys it
    does not know are dropped. The messages of the errors thrown are
    shortened. *)
Definition storedValSchema_parse (raw : unknown) : Result StoredVal :=
  match raw with
  | JObject props =>
      v ← z_literal_1 (get_prop props "version");
      d ← z_date (get_prop props "savedAt");
      k ← z_string_optional (get_prop props "beforeTreeKey");
      f ← z_map_string_bytes (get_prop props "files");
      Ok {| version := v; savedAt := d; beforeTreeKey := k; files := f |}
  | _ => Throw "Expected object"
  end.

(** ** The draft store ([./persistence]) *)

(** Modelled from the spec: the store behind [getDraft], [setDraft] and
    [delDraft] of [./persistence], which is not part of the sources at
    hand. The spec's Draft Store is a key/value store holding one record
    per key. What is stored is the JavaScript object handed to
    [setDraft]. *)
Abbreviation DraftStore := (gmap (list string) unknown).

Definition option_string_to_js (o : option string) : unknown :=
  match o with
  | Some s => JStr s
  | None => JUndefined
  end.

Definition files_to_js (f : Files) : unknown :=
  JMap (map (fun kv : string * list byte => (JStr kv.1, JUint8Array kv.2))
            (map_to_list f)).

(** The object literal [{ beforeTreeKey, files, savedAt, version }] as a
    JavaScript value. *)
Definition storedVal_to_js (d : StoredVal) : unknown :=
  JObject [ ("beforeTreeKey", option_string_to_js (beforeTreeKey d));
            ("files", files_to_js (files d));
            ("savedAt", JDate (Some (savedAt d)));
            ("version", JNum (version d)) ].

(** Modelled from the spec: [getDraft] of [./persistence], the Draft
    Store's [get(identityKey)], which answers the record under the key or
    [undefined]. *)
Definition getDraft (store : DraftStore) (key : list string) : unknown :=
  default JUndefined (store !! key).

(** Modelled from the spec: [setDraft] of [./persistence], the Draft
    Store's [set(identityKey, record)], which overwrites what the key
    held. *)
Definition setDraft (key : list string) (val : StoredVal) (store : DraftStore)
  : DraftStore :=
  <[key := storedVal_to_js val]> store.

(** Modelled from the spec: [delDraft] of [./persistence], the Draft
    Store's [delete(identityKey)]. *)
Definition delDraft (key : list string) (store : DraftStore) : DraftStore :=
  delete key store.

(** ** What the page imports *)

(** [parseEntry] answers [{ initialState, initialFiles }]. *)
Record ParsedEntry := {
  parsed_initialState : Value;
  parsed_initialFiles : list string;
}.

(** The functions the page imports from the form, codec and utility
    modules. Their sources are not at hand, so the page is embedded over
    any implementation of them. [config] is fixed and left out of their
    arguments. A schema is [Object.entries(singletonConfig.schema)]: the
    fields by name, in the order of the object. *)
Class Codec := {
  (** a field schema, [ComponentSchema] of [../form/api] *)
  ComponentSchema : Type;
  (** the Yjs value of a field *)
  YVal : Type;
  getInitialPropsValue : ComponentSchema -> unknown;
  (** [getInitialPropsValue(fields.object(schema))] *)
  getInitialPropsValue_object : list (string * ComponentSchema) -> Value;
  (** [parseEntry({ config, dirpath, format, schema, slug }, files)] *)
  parseEntry :
    string -> list (string * ComponentSchema) -> Files -> Result ParsedEntry;
  (** [serializeEntryToFiles({ basePath, config, format, schema, slug,
      state })] *)
  serializeEntryToFiles :
    string -> list (string * ComponentSchema) -> Value ->
    list (string * list byte);
  (** [useHasChanged({ initialState, state, schema, slugField })] *)
  useHasChanged :
    option Value -> Value -> list (string * ComponentSchema) -> bool;
  clientSideValidateProp : list (string * ComponentSchema) -> Value -> bool;
  getYjsValFromParsedValue : ComponentSchema -> unknown -> YVal;
  (** [getSingletonPath(config, singleton)] *)
  getSingletonPath : string -> string;
  encodeURIComponent : string -> string;
}.

Abbreviation Schema := (list (string * ComponentSchema)).

(** ** Props and hook state *)

Section SingletonPage.

Context {codec : Codec}.

Record SingletonConfig := {
  label : string;
  schema : Schema;
  previewUrl : option string;
}.

(** [SingletonPageProps]. [singletonConfig] stands for
    [config.singletons![singleton]!], which the wrapper has looked up
    before it renders a page. *)
Record SingletonPageProps := {
  singleton : string;
  singletonConfig : SingletonConfig;
  initialState : option Value;
  initialFiles : list string;
  localTreeKey : option string;
}.

(** The [draft] prop of [LocalSingletonPage]. *)
Record Draft := {
  draft_state : Value;
  draft_savedAt : Z;
  draft_treeKey : option string;
}.

(** The value held by [useState] in [LocalSingletonPage]. *)
Record LocalState := {
  st_localTreeKey : option string;
  st_state : Value;
}.

(** ** [LocalSingletonPage] *)

(** [initialState === null ? getInitialPropsValue(schema) : initialState] *)
Definition committedOrDefault (props : SingletonPageProps) : Value :=
  match initialState props with
  | None => getInitialPropsValue_object (schema (singletonConfig props))
  | Some v => v
  end.

(** The initialiser of [useState]; [draft?.state ?? ...] takes the draft's
    state whenever there is a draft. *)
Definition useState_initial (props : SingletonPageProps) (draft : option Draft)
  : LocalState :=
  {| st_localTreeKey := localTreeKey props;
     st_state := match draft with
                 | Some d => draft_state d
                 | None => committedOrDefault props
                 end |}.

(** [showDraftRestoredToast(savedAt, hasChangedSince)] *)
Record Toast := {
  toast_savedAt : Z;
  toast_treeChanged : bool;
}.

(** The first effect: a toast when the state is the draft's state.
    [state === draft.state] compares two objects by identity; values are
    compared here, which agrees with it where the effect runs, after the
    first render, when the state is the object the initialiser took from
    the draft. *)
Definition draftRestoredEffect (props : SingletonPageProps)
    (draft : option Draft) (st : LocalState) : option Toast :=
  match draft with
  | Some d =>
      if decide (st_state st = draft_state d)
      then Some {| toast_savedAt := draft_savedAt d;
                   toast_treeChanged :=
                     bool_decide (localTreeKey props <> draft_treeKey d) |}
      else None
  | None => None
  end.

(** [if (localTreeKeyInState !== localTreeKey) setState(...)]: a state
    update during render, after which the component renders with the new
    state. *)
Definition reconcile (props : SingletonPageProps) (st : LocalState)
  : LocalState :=
  if decide (st_localTreeKey st <> localTreeKey props)
  then {| st_localTreeKey := localTreeKey props;
          st_state := committedOrDefault props |}
  else st.

Definition isCreating (props : SingletonPageProps) : bool :=
  match initialState props with None => true | Some _ => false end.

Definition hasChanged (props : SingletonPageProps) (state : Value) : bool :=
  useHasChanged (initialState props) state (schema (singletonConfig props))
  || isCreating props.

(** The key of a singleton's draft: [['singleton', singleton]]. *)
Definition draftKey (name : string) : list string := ["singleton"; name].

(** The autosave effect; [now] is the reading of [new Date()]. *)
Definition autosaveEffect (props : SingletonPageProps) (state : Value)
    (now : Z) (store : DraftStore) : DraftStore :=
  let key := draftKey (singleton props) in
  if hasChanged props state then
    let serialized :=
      serializeEntryToFiles (getSingletonPath (singleton props))
        (schema (singletonConfig props)) state in
    let files := js_new_map serialized in
    let data := {| beforeTreeKey := localTreeKey props;
                   files := files;
                   savedAt := now;
                   version := 1 |} in
    setDraft key data store
  else delDraft key store.

(** The record the autosave effect writes when [hasChanged]. *)
Definition autosaved (props : SingletonPageProps) (state : Value) (now : Z)
  : StoredVal :=
  {| version := 1;
     savedAt := now;
     beforeTreeKey := localTreeKey props;
     files := js_new_map
                (serializeEntryToFiles (getSingletonPath (singleton props))
                   (schema (singletonConfig props)) state) |}.

(** [setState(state => ({ localTreeKey: state.localTreeKey,
    state: stateUpdater(state.state) }))] *)
Definition onChange (stateUpdater : Value -> Value) (st : LocalState)
  : LocalState :=
  {| st_localTreeKey := st_localTreeKey st;
     st_state := stateUpdater (st_state st) |}.

Definition onReset (props : SingletonPageProps) : LocalState :=
  {| st_localTreeKey := localTreeKey props;
     st_state := committedOrDefault props |}.

(** The first render followed by the two effects, in the order of the
    source. On the first render the state is the one [useState]
    initialises. *)
Record Mounted := {
  m_state : LocalState;
  m_toast : option Toast;
  m_store : DraftStore;
}.

Definition mount (props : SingletonPageProps) (draft : option Draft)
    (now : Z) (store : DraftStore) : Mounted :=
  let st := reconcile props (useState_initial props draft) in
  {| m_state := st;
     m_toast := draftRestoredEffect props draft st;
     m_store := autosaveEffect props (st_state st) now store |}.

(** A later render of the mounted page in which a dependency of the
    autosave effect has changed (the state is a new object, or the props
    are new): the first effect depends on [draft] alone and does not run
    again, the autosave effect does. *)
Definition rerender (props : SingletonPageProps) (st : LocalState)
    (now : Z) (store : DraftStore) : LocalState * DraftStore :=
  let st' := reconcile props st in
  (st', autosaveEffect props (st_state st') now store).

(** ** [SingletonPageWrapper] *)

(** Modelled from the spec: [useData] of [./useData] is not part of the
    sources at hand. Loading is a suspension point whose outcome the page
    reads as [kind]: ['loaded'] with the value the callback returned,
    ['error'] with what it threw, ['loading'] while it is pending or when
    it returned the [LOADING] sentinel. This is its state once the
    callback has settled. *)
Definition useData {A} (r : Result (Loadable A)) : DataState A :=
  match r with
  | Ok (Ready a) => kind_loaded a
  | Ok LOADING => kind_loading
  | Throw m => kind_error m
  end.

Definition is_loading {A} (d : DataState A) : bool :=
  match d with kind_loading => true | _ => false end.

(** The callback of [draftData]. *)
Definition draftData_callback (store : DraftStore) (name : string)
    (sc : SingletonConfig) : Result Draft :=
  let raw := getDraft store (draftKey name) in
  if negb (js_truthy raw) then Throw "No draft found" else
  stored ← storedValSchema_parse raw;
  parsed ← parseEntry (getSingletonPath name) (schema sc) (files stored);
  Ok {| draft_state := parsed_initialState parsed;
        draft_savedAt := savedAt stored;
        draft_treeKey := beforeTreeKey stored |}.

(** What [useItemData] has loaded: ['not-found'] or the committed entry. *)
Record LoadedItem := {
  item_initialState : Value;
  item_initialFiles : list string;
  item_localTreeKey : option string;
}.

Inductive ItemData : Type :=
  | not_found
  | found (item : LoadedItem).

(** A [Y.Doc] as far as the page uses it: its map ['data'], the
    transactions made on it, and whether [load()] was called. *)
Record YDoc := {
  doc_data : gmap string YVal;
  doc_transactions : list (list (string * YVal));
  doc_loadRequested : bool;
}.

(** [new Y.Doc()] *)
Definition new_YDoc : YDoc :=
  {| doc_data := ∅; doc_transactions := []; doc_loadRequested := false |}.

Definition doc_load (doc : YDoc) : YDoc :=
  {| doc_data := doc_data doc;
     doc_transactions := doc_transactions doc;
     doc_loadRequested := true |}.

(** The [map.set(key, val)] calls of a callback, applied in order. *)
Definition ymap_set_all (ops : list (string * YVal)) (m : gmap string YVal)
  : gmap string YVal :=
  foldl (fun m kv => <[kv.1 := kv.2]> m) m ops.

(** [doc.transact(() => { ... })], the callback given by the [set] calls it
    makes: they are applied and recorded as one transaction. *)
Definition transact (ops : list (string * YVal)) (doc : YDoc) : YDoc :=
  {| doc_data := ymap_set_all ops (doc_data doc);
     doc_transactions := doc_transactions doc ++ [ops];
     doc_loadRequested := doc_loadRequested doc |}.

(** [useYjsIfAvailable()]: [undefined], ['loading'], or the collaboration
    data with its documents by key. *)
Inductive YjsInfo : Type :=
  | yjs_unavailable
  | yjs_loading
  | yjs_ready (data : gmap string YDoc).

(** The [set] calls of the seeding loop over [Object.entries(schema)]. *)
Definition seedOps (sc : SingletonConfig) (item : ItemData)
  : list (string * YVal) :=
  map (fun kv : string * ComponentSchema =>
         (kv.1,
          getYjsValFromParsedValue kv.2
            match item with
            | not_found => getInitialPropsValue kv.2
            | found d => record_get (item_initialState d) kv.1
            end))
      (schema sc).

(** [if (!data.size) doc.transact(...)] *)
Definition seedIfEmpty (sc : SingletonConfig) (item : ItemData) (doc : YDoc)
  : YDoc :=
  if bool_decide (size (doc_data doc) = 0)
  then transact (seedOps sc item) doc
  else doc.

(** The callback of [mapData]. The document is a shared object: what the
    callback does to it is seen under its key, so the callback answers
    the collaboration data after the call together with its result. *)
Definition mapData_callback (yjsInfo : YjsInfo) (itemData : DataState ItemData)
    (key : string) (sc : SingletonConfig)
  : YjsInfo * Result (Loadable (option YDoc)) :=
  match yjsInfo with
  | yjs_unavailable => (yjsInfo, Ok (Ready None))
  | yjs_loading => (yjsInfo, Ok LOADING)
  | yjs_ready docs =>
      match itemData with
      | kind_loaded item =>
          let doc := match docs !! key with
                     | Some doc => doc_load doc
                     | None => new_YDoc
                     end in
          let doc' := seedIfEmpty sc item doc in
          (yjs_ready (<[key := doc']> docs), Ok (Ready (Some doc')))
      | _ => (yjsInfo, Ok LOADING)
      end
  end.

Inductive View : Type :=
  | view_error (message : string)
  | view_loading
  | view_collab (props : SingletonPageProps) (map : YDoc)
  | view_local (props : SingletonPageProps) (draft : option Draft).

(** The props both pages are given from the loaded item. *)
Definition propsOf (name : string) (sc : SingletonConfig) (item : ItemData)
  : SingletonPageProps :=
  {| singleton := name;
     singletonConfig := sc;
     initialState := match item with
                     | not_found => None
                     | found d => Some (item_initialState d)
                     end;
     initialFiles := match item with
                     | not_found => []
                     | found d => item_initialFiles d
                     end;
     localTreeKey := match item with
                     | not_found => None
                     | found d => item_localTreeKey d
                     end |}.

(** What the wrapper returns, from the three loads. *)
Definition SingletonPageWrapper (name : string) (sc : SingletonConfig)
    (itemData : DataState ItemData) (draftData : DataState Draft)
    (mapData : DataState (option YDoc)) : View :=
  match itemData, mapData with
  | kind_error m, _ => view_error m
  | _, kind_error m => view_error m
  | _, _ =>
      if is_loading itemData || is_loading draftData || is_loading mapData
      then view_loading
      else
        match itemData, mapData with
        | kind_loaded item, kind_loaded (Some map) =>
            view_collab (propsOf name sc item) map
        | kind_loaded item, kind_loaded None =>
            view_local (propsOf name sc item)
              match draftData with
              | kind_loaded d => Some d
              | _ => None
              end
        | _, _ => view_loading
        end
  end.

(** [`${branchInfo.currentBranch}/${props.singleton}`] *)
Definition collabKey (currentBranch name : string) : string :=
  currentBranch +:+ "/" +:+ name.

(** The wrapper on a draft store, an item load and the collaboration
    data, once its loads have settled. *)
Definition openSingleton (name : string) (sc : SingletonConfig)
    (currentBranch : string) (store : DraftStore)
    (itemData : DataState ItemData) (yjsInfo : YjsInfo) : View :=
  let draftData :=
    useData (d ← draftData_callback store name sc; Ok (Ready d)) in
  let mapData :=
    useData (mapData_callback yjsInfo itemData
               (collabKey currentBranch name) sc).2 in
  SingletonPageWrapper name sc itemData draftData mapData.

(** ** [SingletonPageInner] *)

(** Modelled from the spec: the type of [updateResult], the first
    component of [useUpsertItem]'s answer, is declared in [./updating],
    which is not at hand. It is the spec's Update Result, whose
    needs-new-branch carries a reason and a [branchOid]. The page reads
    the [kind], the [reason] of ['needs-new-branch'] and the message of
    ['error']. *)
Inductive UpdateResult : Type :=
  | idle
  | loading
  | error (message : string)
  | needs_new_branch (reason : string) (branchOid : string)
  | needs_fork.

#[global] Instance UpdateResult_eq : EqDecision UpdateResult.
Proof. solve_decision. Defined.

(** The argument of [update]: [{ branch, sha }]. *)
Record UpdateOptions := {
  branch : string;
  sha : string;
}.

(** What the inner page is rendered with: the props it is passed and the
    values of its hooks. *)
Record InnerProps := {
  page : SingletonPageProps;
  updateResult : UpdateResult;
  inner_hasChanged : bool;
  inner_state : Value;
  baseCommit : string;          (* [useBaseCommit()] *)
  isGitHubConfig : bool;        (* [isGitHubConfig(props.config)] *)
}.

(** The calls a handler of the page makes, in order. *)
Inductive Call : Type :=
  | call_setForceValidation
  | call_onUpdate (options : option UpdateOptions)
  | call_onResetUpdateItem
  | call_onReset
  | call_router_push (href : string).

Definition onCreate (p : InnerProps) : list Call :=
  if bool_decide (updateResult p = loading) || negb (inner_hasChanged p)
  then []
  else if negb (clientSideValidateProp
                  (schema (singletonConfig (page p))) (inner_state p))
  then [call_setForceValidation]
  else [call_onUpdate None].

(** The dialogs the page renders. *)
Inductive Dialog : Type :=
  | CreateBranchDuringUpdateDialog (branchOid : string) (reason : string)
  | ForkRepoDialog.

Definition newBranchDialog (p : InnerProps) : option Dialog :=
  match updateResult p with
  | needs_new_branch reason _ =>
      Some (CreateBranchDuringUpdateDialog (baseCommit p) reason)
  | _ => None
  end.

Definition forkDialog (p : InnerProps) : option Dialog :=
  match updateResult p with
  | needs_fork => if isGitHubConfig p then Some ForkRepoDialog else None
  | _ => None
  end.

(** [onCreate] of the branch dialog. *)
Definition newBranchDialog_onCreate (p : InnerProps) (newBranch : string)
  : list Call :=
  [ call_router_push
      ("/keystatic/branch/" +:+ encodeURIComponent newBranch +:+
       "/singleton/" +:+ encodeURIComponent (singleton (page p)));
    call_onUpdate (Some {| branch := newBranch; sha := baseCommit p |}) ].

(** [onCreate] of the fork dialog. *)
Definition forkDialog_onCreate (p : InnerProps) : list Call :=
  [ call_onUpdate None ].

(** What the user can do on the page. A dialog's handlers exist only while
    the dialog is rendered, and the reset action is disabled unless
    [hasChanged]. *)
Inductive Event : Type :=
  | ev_submit (fromForm : bool)   (* [event.target === event.currentTarget] *)
  | ev_newBranch_create (newBranch : string)
  | ev_newBranch_dismiss
  | ev_fork_create
  | ev_fork_dismiss
  | ev_action_reset.

Definition handle (p : InnerProps) (e : Event) : list Call :=
  match e with
  | ev_submit fromForm => if fromForm then onCreate p else []
  | ev_newBranch_create newBranch =>
      match newBranchDialog p with
      | Some _ => newBranchDialog_onCreate p newBranch
      | None => []
      end
  | ev_newBranch_dismiss =>
      match newBranchDialog p with
      | Some _ => [call_onResetUpdateItem]
      | None => []
      end
  | ev_fork_create =>
      match forkDialog p with
      | Some _ => forkDialog_onCreate p
      | None => []
      end
  | ev_fork_dismiss =>
      match forkDialog p with
      | Some _ => [call_onResetUpdateItem]
      | None => []
      end
  | ev_action_reset => if inner_hasChanged p then [call_onReset] else []
  end.

(** ** The update coordinator ([useUpsertItem]) *)

(** Modelled from the spec: what [update] submits to the backing store,
    the target branch, the commit it is based on, and the files to write
    and to delete. *)
Record CommitRequest := {
  req_branch : string;
  req_sha : string;
  req_additions : list (string * list byte);
  req_deletions : list string;
}.

(** Modelled from the spec: the answers of the Backing Store Client's
    [commit]. *)
Inductive CommitResponse : Type :=
  | Success
  | BranchDiverged (reason : string) (branchOid : string)
  | NeedsFork
  | Failure (message : string).

(** Modelled from the spec: the state of [useUpsertItem], its update
    result, together with the commit requests sent so far and how many of
    them the backing store has not answered yet. *)
Record Coordinator := {
  co_result : UpdateResult;
  co_sent : list CommitRequest;
  co_inFlight : nat;
}.

(** Modelled from the spec: [useUpsertItem] of [./updating] is not part of
    the sources at hand. By the spec's Update Coordinator, [update] is a
    no-op while loading; otherwise it serialises the current editable
    state, takes as deletions the initial files that are no longer
    written, and submits to the current branch at the base commit, or to
    the [branch] and [sha] it is given. A retry, which is an [update]
    from the needs-new-branch or needs-fork result, reuses the files
    already serialised for the request that was rejected and does not
    read the editable state a second time. *)
Definition update (p : InnerProps) (currentBranch : string)
    (options : option UpdateOptions) (c : Coordinator) : Coordinator :=
  if bool_decide (co_result c = loading) then c else
  let current :=
    serializeEntryToFiles (getSingletonPath (singleton (page p)))
      (schema (singletonConfig (page p))) (inner_state p) in
  let serialized :=
    match co_result c, last (co_sent c) with
    | needs_new_branch _ _, Some rejected
    | needs_fork, Some rejected => req_additions rejected
    | _, _ => current
    end in
  {| co_result := loading;
     co_sent := co_sent c ++
       [ {| req_branch := match options with
                          | Some o => branch o
                          | None => currentBranch
                          end;
            req_sha := match options with
                       | Some o => sha o
                       | None => baseCommit p
                       end;
            req_additions := serialized;
            req_deletions :=
              filter (fun f => f ∉ serialized.*1) (initialFiles (page p)) |} ];
     co_inFlight := S (co_inFlight c) |}.

(** Modelled from the spec: how the coordinator classifies the backing
    store's answer to a commit. *)
Definition classify (r : CommitResponse) : UpdateResult :=
  match r with
  | Success => idle
  | BranchDiverged reason oid => needs_new_branch reason oid
  | NeedsFork => needs_fork
  | Failure m => error m
  end.

(** Modelled from the spec: the reset operation of the coordinator. *)
Definition resetUpdateItem (c : Coordinator) : Coordinator :=
  {| co_result := idle;
     co_sent := co_sent c;
     co_inFlight := co_inFlight c |}.

(** The page with its coordinator: the editable state, whether it differs
    from the baseline, and the coordinator. *)
Record PageState := {
  ps_state : Value;
  ps_coordinator : Coordinator;
}.

Record PageEnv := {
  env_page : SingletonPageProps;
  env_baseCommit : string;
  env_currentBranch : string;
  env_isGitHubConfig : bool;
}.

Definition innerProps (env : PageEnv) (s : PageState) : InnerProps :=
  {| page := env_page env;
     updateResult := co_result (ps_coordinator s);
     inner_hasChanged := hasChanged (env_page env) (ps_state s);
     inner_state := ps_state s;
     baseCommit := env_baseCommit env;
     isGitHubConfig := env_isGitHubConfig env |}.

Definition perform (env : PageEnv) (s : PageState) (c : Call) : PageState :=
  match c with
  | call_onUpdate o =>
      {| ps_state := ps_state s;
         ps_coordinator :=
           update (innerProps env s) (env_currentBranch env) o
             (ps_coordinator s) |}
  | call_onResetUpdateItem =>
      {| ps_state := ps_state s;
         ps_coordinator := resetUpdateItem (ps_coordinator s) |}
  | call_onReset =>
      {| ps_state := committedOrDefault (env_page env);
         ps_coordinator := ps_coordinator s |}
  | call_setForceValidation | call_router_push _ => s
  end.

(** What happens to the page: a user event, an edit of the form, or the
    backing store's answer to a commit in flight (there is no answer
    without a request). *)
Inductive Step : Type :=
  | step_event (e : Event)
  | step_edit (stateUpdater : Value -> Value)
  | step_response (r : CommitResponse).

Definition step (env : PageEnv) (s : PageState) (x : Step) : PageState :=
  match x with
  | step_event e => foldl (perform env) s (handle (innerProps env s) e)
  | step_edit f =>
      {| ps_state := f (ps_state s); ps_coordinator := ps_coordinator s |}
  | step_response r =>
      match co_inFlight (ps_coordinator s) with
      | S n =>
          {| ps_state := ps_state s;
             ps_coordinator :=
               {| co_result := classify r;
                  co_sent := co_sent (ps_coordinator s);
                  co_inFlight := n |} |}
      | O => s
      end
  end.

Definition run (env : PageEnv) (s : PageState) (xs : list Step) : PageState :=
  foldl (step env) s xs.

Definition is_response (x : Step) : bool :=
  match x with step_response _ => true | _ => false end.

(** The page before anything was submitted. *)
Definition initialPage (state : Value) : PageState :=
  {| ps_state := state;
     ps_coordinator := {| co_result := idle; co_sent := []; co_inFlight := 0 |} |}.

(** The request [update] sends for a state, a branch and a commit. *)
Definition requestFor (env : PageEnv) (state : Value) (b oid : string)
  : CommitRequest :=
  let serialized :=
    serializeEntryToFiles (getSingletonPath (singleton (env_page env)))
      (schema (singletonConfig (env_page env))) state in
  {| req_branch := b;
     req_sha := oid;
     req_additions := serialized;
     req_deletions :=
       filter (fun f => f ∉ serialized.*1) (initialFiles (env_page env)) |}.

(** ** [CollabSingletonPage] *)

(** The [set] calls of the reset loop:
    [props.initialState?.[key] ?? getInitialPropsValue(value)]. *)
Definition resetOps (props : SingletonPageProps) : list (string * YVal) :=
  map (fun kv : string * ComponentSchema =>
         (kv.1,
          getYjsValFromParsedValue kv.2
            (nullish_coalesce
               match initialState props with
               | None => JUndefined
               | Some st => record_get st kv.1
               end
               (getInitialPropsValue kv.2))))
      (schema (singletonConfig props)).

(** What [onReset] does after the other, in order. *)
Inductive ResetStep : Type :=
  | reset_transact (ops : list (string * YVal))
  | reset_await_whenSynced
  | reset_reload.

Definition collab_onReset (props : SingletonPageProps) (doc : YDoc)
  : YDoc * list ResetStep :=
  (transact (resetOps props) doc,
   [ reset_transact (resetOps props); reset_await_whenSynced; reset_reload ]).

End SingletonPage.

(** ** A small codec *)

(** A concrete implementation of the imports, on which the definitions
    above can be run: text and integer fields, an entry stored as one file
    holding the bytes of its [title]. *)
Module Example.

Inductive field : Type :=
  | text (defaultValue : string)
  | integer (defaultValue : option Z).

Definition field_default (f : field) : unknown :=
  match f with
  | text d => JStr d
  | integer (Some n) => JNum n
  | integer None => JNull
  end.

Definition object_default (sch : list (string * field)) : Value :=
  list_to_map (map (fun kv : string * field => (kv.1, field_default kv.2)) sch).

Definition data_file (path : string) : string := path +:+ ".yaml".

Definition serialize (path : string) (sch : list (string * field))
    (state : Value) : list (string * list byte) :=
  [ (data_file path,
     match record_get state "title" with
     | JStr s => String.list_byte_of_string s
     | _ => []
     end) ].

Definition parse (path : string) (sch : list (string * field)) (f : Files)
  : Result ParsedEntry :=
  match f !! data_file path with
  | Some c =>
      Ok {| parsed_initialState := {[ "title" := JStr (String.string_of_list_byte c) ]};
            parsed_initialFiles := [data_file path] |}
  | None => Throw "Entry not found"
  end.

Definition has_changed (init : option Value) (state : Value)
    (sch : list (string * field)) : bool :=
  match init with
  | None => true
  | Some v => bool_decide (v <> state)
  end.

Definition validate (sch : list (string * field)) (state : Value) : bool :=
  match record_get state "title" with
  | JStr s => negb (bool_decide (s = ""))
  | _ => true
  end.

Definition codec : Codec :=
  {| ComponentSchema := field;
     YVal := unknown;
     getInitialPropsValue := field_default;
     getInitialPropsValue_object := object_default;
     parseEntry := parse;
     serializeEntryToFiles := serialize;
     useHasChanged := has_changed;
     clientSideValidateProp := validate;
     getYjsValFromParsedValue := fun _ v => v;
     getSingletonPath := fun name => "content/" +:+ name;
     encodeURIComponent := fun s => s |}.

#[local] Existing Instance codec.

(** A singleton [settings] with a [title]. *)
Definition settings : @SingletonConfig codec :=
  {| label := "Settings"; schema := [("title", text "")]; previewUrl := None |}.

Definition titled (s : string) : Value := {[ "title" := JStr s ]}.

Definition committed (s : string) (treeKey : string) : ItemData :=
  found {| item_initialState := titled s;
           item_initialFiles := ["content/settings.yaml"];
           item_localTreeKey := Some treeKey |}.

(** The page of [settings] with title A committed on tree [tree1], on
    branch [main] whose base commit is [def456]. *)
Definition env : PageEnv :=
  {| env_page := propsOf "settings" settings (committed "A" "tree1");
     env_baseCommit := "def456";
     env_currentBranch := "main";
     env_isGitHubConfig := true |}.

(** A draft of [settings] with title B, saved at time 1700 on tree
    [tree0]. *)
Definition draftB : StoredVal :=
  {| version := 1;
     savedAt := 1700;
     beforeTreeKey := Some "tree0";
     files := {[ "content/settings.yaml" := String.list_byte_of_string "B" ]} |}.

Definition parsedB : ParsedEntry :=
  {| parsed_initialState := titled "B";
     parsed_initialFiles := ["content/settings.yaml"] |}.

(** A record with version tag 2. *)
Definition draftV2 : unknown :=
  JObject [ ("version", JNum 2); ("savedAt", JDate (Some 1700%Z));
            ("files", JMap []) ].

(** A singleton [counter] whose [count] defaults to 5, committed with no
    count. *)
Definition counter : @SingletonConfig codec :=
  {| label := "Counter";
     schema := [("count", integer (Some 5%Z))];
     previewUrl := None |}.

Definition counterItem : ItemData :=
  found {| item_initialState := {[ "count" := JNull ]};
           item_initialFiles := ["content/counter.yaml"];
           item_localTreeKey := Some "tree1" |}.

End Example.

(** ** [String.prototype.replace] with a string pattern *)

Fixpoint string_drop (n : nat) (s : string) : string :=
  match n, s with
  | O, _ => s
  | S n', String _ s' => string_drop n' s'
  | S _, EmptyString => EmptyString
  end.

Fixpoint contains_char (c : Ascii.ascii) (s : string) : bool :=
  match s with
  | EmptyString => false
  | String c' s' => Ascii.eqb c' c || contains_char c s'
  end.

(** The text before and after the first occurrence of [pattern] in [s],
    when there is one. *)
Fixpoint split_first (pattern s : string) : option (string * string) :=
  if String.prefix pattern s
  then Some (EmptyString, string_drop (String.length pattern) s)
  else match s with
       | EmptyString => None
       | String c s' =>
           match split_first pattern s' with
           | Some (before, after) => Some (String c before, after)
           | None => None
           end
       end.

(** The replacement text for a match without capture groups: [$$] is a
    dollar sign, [$&] the match, [$`] the text before it, [$'] the text
    after it; everything else is taken as it is. *)
Fixpoint getSubstitution (matched before after template : string) : string :=
  match template with
  | EmptyString => EmptyString
  | String c rest =>
      if Ascii.eqb c "$"%char then
        match rest with
        | EmptyString => String c EmptyString
        | String d rest' =>
            if Ascii.eqb d "$"%char
            then String "$"%char (getSubstitution matched before after rest')
            else if Ascii.eqb d "&"%char
            then matched +:+ getSubstitution matched before after rest'
            else if Ascii.eqb d "`"%char
            then before +:+ getSubstitution matched before after rest'
            else if Ascii.eqb d "'"%char
            then after +:+ getSubstitution matched before after rest'
            else String c (getSubstitution matched before after rest)
        end
      else String c (getSubstitution matched before after rest)
  end.

(** [s.replace(pattern, replacement)]: the first occurrence only. *)
Definition js_replace (s pattern replacement : string) : string :=
  match split_first pattern s with
  | None => s
  | Some (before, after) =>
      before +:+ getSubstitution pattern before after replacement +:+ after
  end.

(** ** The header of [SingletonPageInner] *)

Section Header.

Context {codec : Codec}.

(** [previewHref]: nothing without a [previewUrl] (or with an empty one),
    else the url with [{branch}] replaced. *)
Definition previewHref (sc : SingletonConfig) (currentBranch : string)
  : option string :=
  match previewUrl sc with
  | None => None
  | Some url =>
      if bool_decide (url = "") then None
      else Some (js_replace url "{branch}" currentBranch)
  end.

(** [formatInfo.dataLocation] *)
Inductive DataLocation : Type :=
  | dataLocation_index
  | dataLocation_outer.

(** What the inner page takes from the shell and the configuration beside
    its props: [branchInfo.currentBranch], [getRepoUrl(branchInfo)],
    [getPathPrefix(props.config.storage)], [isCloudConfig(props.config)],
    and [formatInfo] with [getDataFileExtension(formatInfo)]. *)
Record Shell := {
  sh_currentBranch : string;
  sh_repoUrl : string;
  sh_pathPrefix : option string;
  sh_isCloudConfig : bool;
  sh_dataLocation : DataLocation;
  sh_dataFileExtension : string;
}.

(** [!!props.initialState] *)
Definition singletonExists (props : SingletonPageProps) : bool :=
  match initialState props with Some _ => true | None => false end.

(** [getPathPrefix(props.config.storage) ?? ''] *)
Definition pathPrefixOrEmpty (sh : Shell) : string :=
  default "" (sh_pathPrefix sh).

Definition viewHref (sh : Shell) (p : InnerProps) : option string :=
  if (isGitHubConfig p || sh_isCloudConfig sh) && singletonExists (page p)
  then Some
         (sh_repoUrl sh +:+
          match sh_dataLocation sh with
          | dataLocation_index =>
              "/tree/" +:+ sh_currentBranch sh +:+ "/" +:+
              pathPrefixOrEmpty sh +:+ getSingletonPath (singleton (page p))
          | dataLocation_outer =>
              "/blob/" +:+ pathPrefixOrEmpty sh +:+ sh_currentBranch sh +:+
              "/" +:+ getSingletonPath (singleton (page p)) +:+
              sh_dataFileExtension sh
          end)
  else None.

(** An entry of [menuActions], without its icon. *)
Record MenuAction := {
  action_key : string;
  action_label : string;
  action_href : option string;
  action_target : option string;
  action_rel : option string;
}.

(** [if (href)] on [string | undefined] *)
Definition href_truthy (href : option string) : bool :=
  match href with
  | Some s => negb (bool_decide (s = ""))
  | None => false
  end.

Definition menuActions (preview view : option string) : list MenuAction :=
  [ {| action_key := "reset"; action_label := "Reset";
       action_href := None; action_target := None; action_rel := None |} ]
  ++ (if href_truthy preview
      then [ {| action_key := "preview"; action_label := "Preview";
                action_href := preview;
                action_target := Some "_blank";
                action_rel := Some "noopener noreferrer" |} ]
      else [])
  ++ (if href_truthy view
      then [ {| action_key := "view"; action_label := "View on GitHub";
                action_href := view;
                action_target := Some "_blank";
                action_rel := Some "noopener noreferrer" |} ]
      else []).

(** The menu of a page. *)
Definition pageMenu (sh : Shell) (p : InnerProps) : list MenuAction :=
  menuActions
    (previewHref (singletonConfig (page p)) (sh_currentBranch sh))
    (viewHref sh p).

(** ** [LocalSingletonPage] over time *)

(** What happens to a local page under its wrapper: an edit of the form
    whose updater answers a new state object, an edit whose updater
    answers the object it was given, the reset action, or a newly loaded
    item. *)
Inductive LocalEvent : Type :=
  | local_change (stateUpdater : Value -> Value)
  | local_change_same
  | local_reset
  | local_item (item : ItemData).

(** The mounted page: its props, among them the [draft] the wrapper
    passes, its state, and the draft store. *)
Record LocalPage := {
  lp_props : SingletonPageProps;
  lp_draft : option Draft;
  lp_state : LocalState;
  lp_store : DraftStore;
}.

(** The page after its first render. *)
Definition mounted (props : SingletonPageProps) (draft : option Draft)
    (now : Z) (store : DraftStore) : LocalPage :=
  {| lp_props := props;
     lp_draft := draft;
     lp_state := m_state (mount props draft now store);
     lp_store := m_store (mount props draft now store) |}.

Definition rendered (pg : LocalPage) (r : LocalState * DraftStore)
  : LocalPage :=
  {| lp_props := lp_props pg;
     lp_draft := lp_draft pg;
     lp_state := r.1;
     lp_store := r.2 |}.

(** An event at time [now] and what follows from it.

    An edit or a reset sets a new state; the page renders and, the state
    being a new object, the autosave effect runs. When the updater of an
    edit answers the object it was given, no dependency of the effect has
    changed and the effect does not run. The reset action is disabled
    unless [hasChanged].

    A newly loaded item is a new [itemData], on which the callback of
    [mapData] depends: the map load is pending again, the wrapper renders
    the loading view and the page is unmounted. The callback of
    [draftData] depends on neither the item nor the branch, so the draft
    is not loaded again: once the loads have settled the page is mounted
    anew with the props of the new item and the draft of the first
    load. *)
Definition local_step (pg : LocalPage) (e : Z * LocalEvent) : LocalPage :=
  let props := lp_props pg in
  match e.2 with
  | local_change f =>
      rendered pg
        (rerender props (onChange f (lp_state pg)) e.1 (lp_store pg))
  | local_change_same => pg
  | local_reset =>
      if hasChanged props (st_state (lp_state pg))
      then rendered pg (rerender props (onReset props) e.1 (lp_store pg))
      else pg
  | local_item item =>
      mounted (propsOf (singleton props) (singletonConfig props) item)
        (lp_draft pg) e.1 (lp_store pg)
  end.

Definition local_run (pg : LocalPage) (es : list (Z * LocalEvent)) : LocalPage :=
  foldl local_step pg es.

(** The draft store mirrors the page: the state is under the tree key of
    the props, and the singleton's draft is the record of the current
    state, saved at some time, exactly when [hasChanged]. *)
Definition draft_mirrors_state (pg : LocalPage) : Prop :=
  st_localTreeKey (lp_state pg) = localTreeKey (lp_props pg)
  /\ match lp_store pg !! draftKey (singleton (lp_props pg)) with
     | Some raw =>
         hasChanged (lp_props pg) (st_state (lp_state pg)) = true
         /\ exists t,
              raw = storedVal_to_js
                      (autosaved (lp_props pg) (st_state (lp_state pg)) t)
     | None => hasChanged (lp_props pg) (st_state (lp_state pg)) = false
     end.


End Header.

(** ** More of the small codec *)

Module Demo.

#[local] Existing Instance Example.codec.

(** [settings] with a preview on the branch's deployment. *)
Definition previewed : @SingletonConfig Example.codec :=
  {| label := "Settings";
     schema := [("title", Example.text "")];
     previewUrl := Some "https://{branch}.example.com/{branch}" |}.

Definition shell : Shell :=
  {| sh_currentBranch := "main";
     sh_repoUrl := "https://github.com/acme/site";
     sh_pathPrefix := None;
     sh_isCloudConfig := false;
     sh_dataLocation := dataLocation_index;
     sh_dataFileExtension := ".yaml" |}.

Definition inner (r : UpdateResult) : InnerProps :=
  {| page := propsOf "settings" previewed (Example.committed "A" "tree1");
     updateResult := r;
     inner_hasChanged := true;
     inner_state := Example.titled "B";
     baseCommit := "def456";
     isGitHubConfig := true |}.

(** A collaborative document that already holds a title and a field the
    schema no longer has. *)
Definition staleDoc : @YDoc Example.codec :=
  {| doc_data := {[ "title" := JStr "old"; "legacy" := JNum 1 ]};
     doc_transactions := [];
     doc_loadRequested := true |}.

(** A version 1 record whose only file is not the data file of
    [settings]. *)
Definition otherFile : StoredVal :=
  {| version := 1;
     savedAt := 1700;
     beforeTreeKey := Some "tree1";
     files := {[ "content/other.yaml" := String.list_byte_of_string "B" ]} |}.

(** The draft that [Example.draftB] decodes to. *)
Definition restoredB : Draft :=
  {| draft_state := Example.titled "B";
     draft_savedAt := 1700;
     draft_treeKey := Some "tree0" |}.

End Demo.


(** * Properties *)

(** ** Facts about the validation *)

Lemma js_new_map_snoc {A} (l : list (string * A)) (kv : string * A) :
  js_new_map (l ++ [kv]) = <[kv.1 := kv.2]> (js_new_map l).
Proof. unfold js_new_map. by rewrite foldl_app. Qed.

Lemma js_new_map_list_to_map {A} (l : list (string * A)) :
  js_new_map l = list_to_map (reverse l).
Proof.
  induction l as [|[k v] l IH] using rev_ind; [done|].
  rewrite js_new_map_snoc, reverse_snoc; simpl.
  by rewrite IH.
Qed.

Lemma js_new_map_to_list {A} (m : gmap string A) :
  js_new_map (map_to_list m) = m.
Proof.
  rewrite js_new_map_list_to_map.
  rewrite <- (list_to_map_to_list m) at 2.
  symmetry. apply list_to_map_proper.
  - apply NoDup_fst_map_to_list.
  - symmetry. apply reverse_Permutation.
Qed.

Lemma z_map_entries_encoded (l : list (string * list byte)) :
  z_map_entries
    (map (fun kv : string * list byte => (JStr kv.1, JUint8Array kv.2)) l)
  = Ok l.
Proof.
  induction l as [|[k c] l IH]; simpl; [done|].
  by rewrite IH.
Qed.

Lemma z_map_string_bytes_encoded (f : Files) :
  z_map_string_bytes (files_to_js f) = Ok f.
Proof.
  unfold z_map_string_bytes, files_to_js.
  rewrite z_map_entries_encoded. simpl.
  by rewrite js_new_map_to_list.
Qed.

Lemma z_string_optional_encoded (o : option string) :
  z_string_optional (option_string_to_js o) = Ok o.
Proof. by destruct o. Qed.

(** A record written by [setDraft] with version tag 1 passes the
    validation unchanged. *)
Lemma storedValSchema_parse_encoded (d : StoredVal) :
  version d = 1%Z ->
  storedValSchema_parse (storedVal_to_js d) = Ok d.
Proof.
  destruct d as [v t k f]; simpl; intros ->.
  unfold storedValSchema_parse, storedVal_to_js.
  cbn [get_prop bool_decide decide_rel]; simpl get_prop.
  cbn [z_literal_1 z_date mbind Result_bind].
  rewrite z_string_optional_encoded, z_map_entries_encoded.
  cbn [mbind Result_bind].
  by rewrite js_new_map_to_list.
Qed.

(** A record whose version tag is not the number 1 is rejected. *)
Lemma storedValSchema_parse_version (raw : unknown) (d : StoredVal) :
  storedValSchema_parse raw = Ok d ->
  exists props, raw = JObject props /\ get_prop props "version" = JNum 1.
Proof.
  destruct raw; simpl; try discriminate.
  intros H. exists props. split; [done|].
  destruct (get_prop props "version") as [| | |n| | | | | |]; simpl in H;
    try discriminate.
  destruct n as [|p|p]; try discriminate.
  destruct p; try discriminate. reflexivity.
Qed.

Lemma storedValSchema_parse_object (raw : unknown) (d : StoredVal) :
  storedValSchema_parse raw = Ok d -> js_truthy raw = true.
Proof. destruct raw; simpl; by try discriminate. Qed.

Lemma js_new_map_lookup_notin {A} (l : list (string * A)) (m : gmap string A)
    (k : string) :
  k ∉ l.*1 -> foldl (fun m kv => <[kv.1 := kv.2]> m) m l !! k = m !! k.
Proof.
  revert m. induction l as [|[k' v'] l IH]; intros m Hk; [done|].
  simpl in *. apply not_elem_of_cons in Hk as [Hne Hk].
  rewrite IH by done. by rewrite lookup_insert_ne.
Qed.

Lemma js_new_map_is_Some {A} (l : list (string * A)) (k : string) :
  is_Some (js_new_map l !! k) <-> k ∈ l.*1.
Proof.
  induction l as [|[k' v'] l IH] using rev_ind.
  - unfold js_new_map; simpl. rewrite lookup_empty. split.
    + by intros [? ?].
    + by intros ?%elem_of_nil.
  - rewrite js_new_map_snoc, fmap_app, elem_of_app; simpl.
    rewrite list_elem_of_singleton.
    destruct (decide (k' = k)) as [->|Hne].
    + rewrite lookup_insert_eq. split; [by right | by eexists].
    + rewrite lookup_insert_ne by done. rewrite IH.
      split; [by left|]. by intros [?|?].
Qed.

Section Facts.

Context {codec : Codec}.

Implicit Types (props : SingletonPageProps) (st : LocalState).
Implicit Types (store : DraftStore) (sc : SingletonConfig) (item : ItemData).

(** *** The draft store under the autosave effect *)

Lemma autosaveEffect_lookup props state now store :
  autosaveEffect props state now store !! draftKey (singleton props)
  = if hasChanged props state
    then Some (storedVal_to_js (autosaved props state now))
    else None.
Proof.
  unfold autosaveEffect, setDraft, delDraft.
  destruct (hasChanged props state).
  - by rewrite lookup_insert_eq.
  - by rewrite lookup_delete_eq.
Qed.

Lemma autosaveEffect_other props state now store (k : list string) :
  k <> draftKey (singleton props) ->
  autosaveEffect props state now store !! k = store !! k.
Proof.
  intros Hk. unfold autosaveEffect, setDraft, delDraft.
  destruct (hasChanged props state).
  - by rewrite lookup_insert_ne.
  - by rewrite lookup_delete_ne.
Qed.

(** *** Opening a singleton in local mode *)

Lemma reconcile_same props st :
  st_localTreeKey st = localTreeKey props -> reconcile props st = st.
Proof. intros H. unfold reconcile. by rewrite decide_False by naive_solver. Qed.

Lemma reconcile_initial props (draft : option Draft) :
  reconcile props (useState_initial props draft) = useState_initial props draft.
Proof. by apply reconcile_same. Qed.

Lemma openSingleton_local name sc (currentBranch : string) store item :
  openSingleton name sc currentBranch store (kind_loaded item) yjs_unavailable
  = view_local (propsOf name sc item)
      match draftData_callback store name sc with
      | Ok d => Some d
      | Throw _ => None
      end.
Proof.
  unfold openSingleton; simpl.
  by destruct (draftData_callback store name sc).
Qed.

Lemma draftData_callback_valid name sc store raw stored parsed :
  store !! draftKey name = Some raw ->
  storedValSchema_parse raw = Ok stored ->
  parseEntry (getSingletonPath name) (schema sc) (files stored) = Ok parsed ->
  draftData_callback store name sc
  = Ok {| draft_state := parsed_initialState parsed;
          draft_savedAt := savedAt stored;
          draft_treeKey := beforeTreeKey stored |}.
Proof.
  intros Hraw Hstored Hparsed. unfold draftData_callback, getDraft.
  rewrite Hraw; simpl.
  rewrite (storedValSchema_parse_object _ _ Hstored); simpl.
  rewrite Hstored; simpl. by rewrite Hparsed.
Qed.

Lemma draftData_callback_absent name sc store :
  store !! draftKey name = None ->
  draftData_callback store name sc = Throw "No draft found".
Proof. intros H. unfold draftData_callback, getDraft. by rewrite H. Qed.

Lemma draftData_callback_invalid name sc store raw :
  store !! draftKey name = Some raw ->
  is_ok (storedValSchema_parse raw) = false ->
  is_ok (draftData_callback store name sc) = false.
Proof.
  intros Hraw Hbad. unfold draftData_callback, getDraft.
  rewrite Hraw; simpl.
  destruct (js_truthy raw); simpl; [|done].
  by destruct (storedValSchema_parse raw).
Qed.

Lemma mount_state props (draft : option Draft) now store :
  m_state (mount props draft now store) = useState_initial props draft.
Proof. unfold mount; simpl. apply reconcile_initial. Qed.

Lemma mount_toast_draft props (d : Draft) now store :
  m_toast (mount props (Some d) now store)
  = Some {| toast_savedAt := draft_savedAt d;
            toast_treeChanged :=
              bool_decide (localTreeKey props <> draft_treeKey d) |}.
Proof.
  unfold mount; simpl. rewrite reconcile_initial; simpl.
  by rewrite decide_True.
Qed.

(** C1: a singleton opened in local mode whose draft store holds a record
    that validates and decodes starts from the decoded value of the draft,
    and shows the draft-restored toast, whose tree-changed flag is set
    exactly when the draft's [beforeTreeKey] differs from the current
    tree key. *)
Theorem draft_restored_on_open name sc (currentBranch : string) store item
    (now : Z) (raw : unknown) (stored : StoredVal) (parsed : ParsedEntry) :
  store !! draftKey name = Some raw ->
  storedValSchema_parse raw = Ok stored ->
  parseEntry (getSingletonPath name) (schema sc) (files stored) = Ok parsed ->
  let props := propsOf name sc item in
  exists draft,
    openSingleton name sc currentBranch store (kind_loaded item) yjs_unavailable
    = view_local props (Some draft)
    /\ st_state (m_state (mount props (Some draft) now store))
       = parsed_initialState parsed
    /\ m_toast (mount props (Some draft) now store)
       = Some {| toast_savedAt := savedAt stored;
                 toast_treeChanged :=
                   bool_decide (beforeTreeKey stored <> localTreeKey props) |}.
Proof.
  intros Hraw Hstored Hparsed props.
  eexists. split; [|split].
  - rewrite openSingleton_local.
    by rewrite (draftData_callback_valid _ _ _ _ _ _ Hraw Hstored Hparsed).
  - by rewrite mount_state.
  - rewrite mount_toast_draft; simpl. do 2 f_equal.
    apply bool_decide_ext. naive_solver.
Qed.

(** C2: a singleton opened in local mode whose draft store holds nothing
    under its key starts from the committed value, or from the schema's
    default value when the entry does not exist, and shows no toast. *)
Theorem no_draft_initial_state name sc (currentBranch : string) store item
    (now : Z) :
  store !! draftKey name = None ->
  let props := propsOf name sc item in
  openSingleton name sc currentBranch store (kind_loaded item) yjs_unavailable
  = view_local props None
  /\ st_state (m_state (mount props None now store))
     = match item with
       | not_found => getInitialPropsValue_object (schema sc)
       | found d => item_initialState d
       end
  /\ m_toast (mount props None now store) = None.
Proof.
  intros Hnone props. split; [|split].
  - rewrite openSingleton_local.
    by rewrite (draftData_callback_absent _ _ _ Hnone).
  - rewrite mount_state. by destruct item.
  - reflexivity.
Qed.

(** C3: after a run of the autosave effect the draft store holds under
    [['singleton', singleton]], when [hasChanged] (the change detector's
    answer, or the entry does not exist), the record [{ beforeTreeKey:
    localTreeKey, files, savedAt: now, version: 1 }], whatever was there
    before, and nothing otherwise. The files of the record are those the
    serialiser wrote for the current state, a path written twice holding
    its last contents, and the record passes [storedValSchema]
    unchanged. *)
Theorem autosave_effect_store props (state : Value) (now : Z) store :
  let key := ["singleton"; singleton props] in
  let changed :=
    useHasChanged (initialState props) state (schema (singletonConfig props))
    || match initialState props with None => true | Some _ => false end in
  let serialized :=
    serializeEntryToFiles (getSingletonPath (singleton props))
      (schema (singletonConfig props)) state in
  let record :=
    {| version := 1;
       savedAt := now;
       beforeTreeKey := localTreeKey props;
       files := list_to_map (reverse serialized) |} in
  let store' := autosaveEffect props state now store in
  store' !! key
  = (if changed then Some (storedVal_to_js record) else None)
  /\ getDraft store' key
     = (if changed then storedVal_to_js record else JUndefined)
  /\ storedValSchema_parse (storedVal_to_js record) = Ok record
  /\ (forall path : string,
        is_Some (files record !! path) <-> path ∈ serialized.*1)
  /\ (forall (earlier later : list (string * list byte)) (path : string)
             (contents : list byte),
        serialized = (earlier ++ (path, contents) :: later)%list ->
        path ∉ later.*1 ->
        files record !! path = Some contents).
Proof.
  intros key changed serialized record store'.
  assert (autosaved props state now = record) as Hrecord.
  { unfold autosaved, record. f_equal. apply js_new_map_list_to_map. }
  assert (store' !! key
          = if changed then Some (storedVal_to_js record) else None) as Hstore.
  { unfold store', key. rewrite <- Hrecord.
    apply (autosaveEffect_lookup props state now store). }
  split; [exact Hstore|]. split; [|split; [|split]].
  - unfold getDraft. rewrite Hstore. by destruct changed.
  - by apply storedValSchema_parse_encoded.
  - intros path. unfold record; simpl.
    rewrite <- js_new_map_list_to_map. apply js_new_map_is_Some.
  - intros earlier later path contents Hser Hlast. unfold record; simpl.
    rewrite <- js_new_map_list_to_map, Hser.
    unfold js_new_map. rewrite foldl_app. simpl.
    rewrite js_new_map_lookup_notin by done. apply lookup_insert_eq.
Qed.

(** The check of the tree key during render (l.332-338), on a page that
    stays mounted: when the tree key of the props is not the one in the
    state, the state becomes the committed value under the new key. *)
Lemma reconcile_stale (name : string) sc item st :
  st_localTreeKey st <> localTreeKey (propsOf name sc item) ->
  reconcile (propsOf name sc item) st
  = {| st_localTreeKey := match item with
                          | not_found => None
                          | found d => item_localTreeKey d
                          end;
       st_state := match item with
                   | not_found => getInitialPropsValue_object (schema sc)
                   | found d => item_initialState d
                   end |}.
Proof.
  intros Hkey. unfold reconcile. rewrite decide_True by done.
  by destruct item.
Qed.

Lemma storedValSchema_parse_bad_version (props : list (string * unknown)) :
  get_prop props "version" <> JNum 1 ->
  is_ok (storedValSchema_parse (JObject props)) = false.
Proof.
  intros Hv.
  destruct (storedValSchema_parse (JObject props)) as [d|m] eqn:E; [|done].
  apply storedValSchema_parse_version in E as (props' & [= <-] & Hone).
  by destruct Hv.
Qed.

Lemma draftData_callback_undecodable name sc store raw (stored : StoredVal) :
  store !! draftKey name = Some raw ->
  storedValSchema_parse raw = Ok stored ->
  is_ok (parseEntry (getSingletonPath name) (schema sc) (files stored)) = false ->
  is_ok (draftData_callback store name sc) = false.
Proof.
  intros Hraw Hstored Hbad. unfold draftData_callback, getDraft.
  rewrite Hraw; simpl.
  rewrite (storedValSchema_parse_object _ _ Hstored); simpl.
  rewrite Hstored; simpl.
  by destruct (parseEntry _ _ _).
Qed.

(** C8: when the record held under [['singleton', name]] does not pass
    [storedValSchema], in particular when its version tag is not the
    number 1, or passes it with files that [parseEntry] does not decode,
    the wrapper still renders the local page (no error view), with no
    draft: the page starts from the committed value (the schema's default
    when the entry does not exist) and shows no toast. After its first
    autosave run the store holds under the key what that run wrote for
    the committed value, or nothing; a record that did not pass
    [storedValSchema] is no longer there. *)
Theorem invalid_draft_discarded (name : string) sc (currentBranch : string)
    store item (now : Z) (raw : unknown) :
  store !! ["singleton"; name] = Some raw ->
  (is_ok (storedValSchema_parse raw) = false
   \/ (exists fields, raw = JObject fields /\ get_prop fields "version" <> JNum 1)
   \/ (exists stored,
         storedValSchema_parse raw = Ok stored
         /\ is_ok (parseEntry (getSingletonPath name) (schema sc) (files stored))
            = false)) ->
  let props := propsOf name sc item in
  let committed :=
    match item with
    | not_found => getInitialPropsValue_object (schema sc)
    | found d => item_initialState d
    end in
  let m := mount props None now store in
  openSingleton name sc currentBranch store (kind_loaded item) yjs_unavailable
  = view_local props None
  /\ st_state (m_state m) = committed
  /\ m_toast m = None
  /\ m_store m !! ["singleton"; name]
     = (if hasChanged props committed
        then Some (storedVal_to_js (autosaved props committed now))
        else None)
  /\ (is_ok (storedValSchema_parse raw) = false ->
      m_store m !! ["singleton"; name] <> Some raw).
Proof.
  intros Hraw Hbad props committed m.
  assert (is_ok (draftData_callback store name sc) = false) as Hfail.
  { destruct Hbad as [H|[(fields & -> & Hv)|(stored & Hs & Hp)]].
    - by apply (draftData_callback_invalid name sc store raw).
    - apply (draftData_callback_invalid name sc store (JObject fields) Hraw).
      by apply storedValSchema_parse_bad_version.
    - by apply (draftData_callback_undecodable name sc store raw stored). }
  assert (st_state (m_state m) = committed) as Hstate.
  { unfold m. rewrite mount_state. unfold committed. by destruct item. }
  assert (m_store m !! ["singleton"; name]
          = if hasChanged props committed
            then Some (storedVal_to_js (autosaved props committed now))
            else None) as Hstore.
  { rewrite <- Hstate. unfold m, mount; simpl.
    apply (autosaveEffect_lookup props). }
  split; [|split; [done|split; [done|split; [done|]]]].
  - rewrite openSingleton_local.
    by destruct (draftData_callback store name sc).
  - intros Hparse. rewrite Hstore.
    destruct (hasChanged props committed); [|done].
    intros [= <-].
    rewrite storedValSchema_parse_encoded in Hparse; done.
Qed.

(** C10: the key of a singleton's draft is [['singleton', name]], made
    from the name alone. So a draft autosaved by the page of a singleton
    opened on one branch is found when the singleton is opened on any
    other branch, against any committed item: if its files decode, the
    page starts from the decoded value, and the toast's tree-changed flag
    compares the tree key the draft was saved under with the current
    one. *)
Theorem draft_found_on_other_branch (name : string) sc (branch1 branch2 : string)
    (store0 store : DraftStore) (item1 item2 : ItemData) (state : Value)
    (savedTime now : Z) (parsed : ParsedEntry) :
  let props1 := propsOf name sc item1 in
  let props2 := propsOf name sc item2 in
  let store' := autosaveEffect props1 state savedTime store in
  hasChanged props1 state = true ->
  parseEntry (getSingletonPath name) (schema sc)
    (js_new_map (serializeEntryToFiles (getSingletonPath name) (schema sc) state))
  = Ok parsed ->
  draftKey name = ["singleton"; name]
  /\ (exists draft1,
        openSingleton name sc branch1 store0 (kind_loaded item1) yjs_unavailable
        = view_local props1 draft1)
  /\ exists draft,
       openSingleton name sc branch2 store' (kind_loaded item2) yjs_unavailable
       = view_local props2 (Some draft)
       /\ st_state (m_state (mount props2 (Some draft) now store'))
          = parsed_initialState parsed
       /\ m_toast (mount props2 (Some draft) now store')
          = Some {| toast_savedAt := savedTime;
                    toast_treeChanged :=
                      bool_decide (localTreeKey props1 <> localTreeKey props2) |}.
Proof.
  intros props1 props2 store' Hchanged Hparsed.
  split; [done|]. split.
  { eexists. apply openSingleton_local. }
  assert (store' !! draftKey name
          = Some (storedVal_to_js (autosaved props1 state savedTime))) as Hraw.
  { unfold store'. change (draftKey name) with (draftKey (singleton props1)).
    by rewrite autosaveEffect_lookup, Hchanged. }
  eexists. split; [|split].
  - rewrite openSingleton_local.
    rewrite (draftData_callback_valid name sc store' _
               (autosaved props1 state savedTime) parsed Hraw); [done| |done].
    by apply storedValSchema_parse_encoded.
  - by rewrite mount_state.
  - rewrite mount_toast_draft; simpl. do 2 f_equal.
    apply bool_decide_ext. naive_solver.
Qed.

(** *** Submitting *)

Lemma handle_loading (p : InnerProps) (e : Event) :
  updateResult p = loading ->
  handle p e = [] \/ handle p e = [call_onReset].
Proof.
  intros H. destruct e; simpl;
    unfold onCreate, newBranchDialog, forkDialog; rewrite ?H; simpl;
    repeat case_match; auto.
Qed.

Lemma step_event_loading (env : PageEnv) (s : PageState) (e : Event) :
  co_result (ps_coordinator s) = loading ->
  ps_coordinator (step env s (step_event e)) = ps_coordinator s.
Proof.
  intros H. simpl.
  destruct (handle_loading (innerProps env s) e H) as [-> | ->]; done.
Qed.

Lemma run_loading (env : PageEnv) (ys : list Step) (s : PageState) :
  co_result (ps_coordinator s) = loading ->
  forallb (fun y => negb (is_response y)) ys = true ->
  ps_coordinator (run env s ys) = ps_coordinator s.
Proof.
  revert s. induction ys as [|y ys IH]; intros s Hl Hys; [done|].
  simpl in Hys. apply andb_prop in Hys as [Hy Hys].
  unfold run; simpl. fold (run env (step env s y) ys).
  assert (ps_coordinator (step env s y) = ps_coordinator s) as Hstep.
  { destruct y as [e|f|r]; [by apply step_event_loading|done|done]. }
  rewrite IH; [done| by rewrite Hstep |done].
Qed.

(** As many requests are unanswered as the state says: one while loading,
    none otherwise. *)
Lemma step_inFlight (env : PageEnv) (s : PageState) (x : Step) :
  co_inFlight (ps_coordinator s)
  = (if bool_decide (co_result (ps_coordinator s) = loading) then 1 else 0) ->
  co_inFlight (ps_coordinator (step env s x))
  = (if bool_decide (co_result (ps_coordinator (step env s x)) = loading)
     then 1 else 0).
Proof.
  destruct s as [v [r sent n]]; simpl. intros ->.
  destruct x as [e|f|resp]; simpl.
  - destruct e; simpl;
      unfold onCreate, newBranchDialog, forkDialog, update; simpl;
      destruct r; simpl; repeat (case_match; simpl); done.
  - done.
  - destruct r, resp; done.
Qed.

Lemma run_inFlight (env : PageEnv) (xs : list Step) (s : PageState) :
  co_inFlight (ps_coordinator s)
  = (if bool_decide (co_result (ps_coordinator s) = loading) then 1 else 0) ->
  co_inFlight (ps_coordinator (run env s xs))
  = (if bool_decide (co_result (ps_coordinator (run env s xs)) = loading)
     then 1 else 0).
Proof.
  revert s. induction xs as [|x xs IH]; intros s H; [done|].
  unfold run; simpl. apply IH. by apply step_inFlight.
Qed.

(** C4: on a page reached from its initial state whose update result is
    loading, submitting makes no call, neither dialog is rendered, and
    whatever the user does (submit again, edit, reset) until the backing
    store answers sends no commit request and leaves the one request in
    flight; at no time is more than one request in flight. *)
Theorem submit_while_loading_is_noop (env : PageEnv) (state : Value)
    (xs ys : list Step) :
  let s := run env (initialPage state) xs in
  co_result (ps_coordinator s) = loading ->
  forallb (fun y => negb (is_response y)) ys = true ->
  onCreate (innerProps env s) = []
  /\ newBranchDialog (innerProps env s) = None
  /\ forkDialog (innerProps env s) = None
  /\ co_sent (ps_coordinator (run env s ys)) = co_sent (ps_coordinator s)
  /\ co_result (ps_coordinator (run env s ys)) = loading
  /\ co_inFlight (ps_coordinator (run env s ys)) = 1
  /\ forall zs, co_inFlight (ps_coordinator (run env (initialPage state) zs)) <= 1.
Proof.
  intros s Hl Hys.
  assert (forall zs,
    co_inFlight (ps_coordinator (run env (initialPage state) zs))
    = (if bool_decide
            (co_result (ps_coordinator (run env (initialPage state) zs)) = loading)
       then 1 else 0)) as Hinv.
  { intros zs. by apply run_inFlight. }
  rewrite (run_loading env ys s Hl Hys).
  repeat split.
  - unfold onCreate; simpl. by rewrite Hl.
  - unfold newBranchDialog; simpl. by rewrite Hl.
  - unfold forkDialog; simpl. by rewrite Hl.
  - done.
  - unfold s. rewrite Hinv. fold s. by rewrite Hl.
  - intros zs. rewrite Hinv. case_bool_decide; lia.
Qed.

Lemma run_edits (env : PageEnv) (edits : list (Value -> Value)) (s : PageState) :
  ps_coordinator (run env s (map step_edit edits)) = ps_coordinator s.
Proof.
  revert s. induction edits as [|f edits IH]; intros s; [done|].
  unfold run; simpl.
  fold (run env {| ps_state := f (ps_state s);
                   ps_coordinator := ps_coordinator s |} (map step_edit edits)).
  by rewrite IH.
Qed.

(** C6, as the code has it: after a submit that the backing store rejects
    as diverged, the update result is needs-new-branch with the reason
    and the commit of the rejection; the dialog is rendered with that
    reason and with the page's base commit ([useBaseCommit()]) as the
    commit to branch from; creating the branch navigates to the singleton
    on the new branch and calls [update({ branch: newBranch, sha:
    baseCommit })]; and the request of the retry carries the files
    serialised for the original submit, whatever was edited in
    between. *)
Theorem new_branch_retry (env : PageEnv) (state : Value)
    (reason oid newBranch : string) (edits : list (Value -> Value)) :
  let rejected :=
    run env (initialPage state)
      [step_event (ev_submit true); step_response (BranchDiverged reason oid)] in
  let edited := run env rejected (map step_edit edits) in
  let p := innerProps env edited in
  let retried := step env edited (step_event (ev_newBranch_create newBranch)) in
  let serialized :=
    serializeEntryToFiles (getSingletonPath (singleton (env_page env)))
      (schema (singletonConfig (env_page env))) state in
  let deletions :=
    filter (fun f => f ∉ serialized.*1) (initialFiles (env_page env)) in
  hasChanged (env_page env) state = true ->
  clientSideValidateProp (schema (singletonConfig (env_page env))) state = true ->
  updateResult p = needs_new_branch reason oid
  /\ newBranchDialog p
     = Some (CreateBranchDuringUpdateDialog (env_baseCommit env) reason)
  /\ handle p (ev_newBranch_create newBranch)
     = [ call_router_push
           ("/keystatic/branch/" +:+ encodeURIComponent newBranch +:+
            "/singleton/" +:+ encodeURIComponent (singleton (env_page env)));
         call_onUpdate
           (Some {| branch := newBranch; sha := env_baseCommit env |}) ]
  /\ co_result (ps_coordinator retried) = loading
  /\ co_sent (ps_coordinator retried)
     = [ {| req_branch := env_currentBranch env;
            req_sha := env_baseCommit env;
            req_additions := serialized;
            req_deletions := deletions |};
         {| req_branch := newBranch;
            req_sha := env_baseCommit env;
            req_additions := serialized;
            req_deletions := deletions |} ].
Proof.
  intros rejected edited p retried serialized deletions Hchanged Hvalid.
  assert (ps_coordinator rejected
          = {| co_result := needs_new_branch reason oid;
               co_sent := [ {| req_branch := env_currentBranch env;
                               req_sha := env_baseCommit env;
                               req_additions := serialized;
                               req_deletions := deletions |} ];
               co_inFlight := 0 |}) as Hrejected.
  { unfold rejected, run, initialPage; simpl.
    unfold onCreate; simpl. rewrite Hchanged, Hvalid; simpl.
    unfold update; simpl. reflexivity. }
  assert (ps_coordinator edited = ps_coordinator rejected) as Hedited
    by apply run_edits.
  assert (updateResult p = needs_new_branch reason oid) as Hresult.
  { unfold p; simpl. by rewrite Hedited, Hrejected. }
  assert (handle p (ev_newBranch_create newBranch)
          = [ call_router_push
                ("/keystatic/branch/" +:+ encodeURIComponent newBranch +:+
                 "/singleton/" +:+ encodeURIComponent (singleton (env_page env)));
              call_onUpdate
                (Some {| branch := newBranch; sha := env_baseCommit env |}) ])
    as Hhandle.
  { simpl. unfold newBranchDialog. by rewrite Hresult. }
  split; [done|]. split.
  { unfold newBranchDialog. by rewrite Hresult. }
  split; [done|].
  assert (ps_coordinator retried
          = update (innerProps env edited) (env_currentBranch env)
              (Some {| branch := newBranch; sha := env_baseCommit env |})
              (ps_coordinator edited)) as Hretried.
  { unfold retried, step. fold p. rewrite Hhandle. reflexivity. }
  rewrite Hretried, Hedited, Hrejected.
  unfold update; simpl. by split.
Qed.

(** *** The collaborative document *)

Lemma ymap_set_all_notin (ops : list (string * YVal)) (m : gmap string YVal)
    (k : string) :
  k ∉ ops.*1 -> ymap_set_all ops m !! k = m !! k.
Proof.
  revert m. induction ops as [|[k' v'] ops IH]; intros m Hk; [done|].
  simpl in *. apply not_elem_of_cons in Hk as [Hne Hk].
  unfold ymap_set_all in *; simpl. rewrite IH by done.
  by rewrite lookup_insert_ne.
Qed.

Lemma ymap_set_all_in (ops : list (string * YVal)) (m : gmap string YVal)
    (k : string) (v : YVal) :
  NoDup ops.*1 -> (k, v) ∈ ops -> ymap_set_all ops m !! k = Some v.
Proof.
  revert m. induction ops as [|[k' v'] ops IH]; intros m Hnd Hin.
  - by apply elem_of_nil in Hin.
  - simpl in Hnd. apply NoDup_cons in Hnd as [Hfresh Hnd].
    apply elem_of_cons in Hin as [[= -> ->]|Hin].
    + change (ymap_set_all ((k', v') :: ops) m)
        with (ymap_set_all ops (<[k' := v']> m)).
      rewrite ymap_set_all_notin by done. apply lookup_insert_eq.
    + change (ymap_set_all ((k', v') :: ops) m)
        with (ymap_set_all ops (<[k' := v']> m)).
      by apply IH.
Qed.

Lemma seedOps_keys sc item : (seedOps sc item).*1 = (schema sc).*1.
Proof.
  unfold seedOps. induction (schema sc) as [|[k f] l IH]; [done|].
  cbn. f_equal. exact IH.
Qed.

Lemma resetOps_keys props : (resetOps props).*1 = (schema (singletonConfig props)).*1.
Proof.
  unfold resetOps. induction (schema (singletonConfig props)) as [|[k f] l IH];
    [done|].
  cbn. f_equal. exact IH.
Qed.

(** C7: when the collaboration data is ready and the item is loaded, the
    document under the key, new or already there and loaded, is seeded if
    and only if its map ['data'] is empty. Seeding is one transaction that
    sets every field of the schema, and nothing else, to the Yjs value of
    the committed field value, or of the field's default when the entry
    does not exist. A document with a non-empty map is left as it is. *)
Theorem seed_on_first_open sc item (docs : gmap string YDoc) (key : string) :
  NoDup (schema sc).*1 ->
  let doc := match docs !! key with
             | Some doc => doc_load doc
             | None => new_YDoc
             end in
  exists doc',
    mapData_callback (yjs_ready docs) (kind_loaded item) key sc
    = (yjs_ready (<[key := doc']> docs), Ok (Ready (Some doc')))
    /\ (size (doc_data doc) = 0 ->
        (forall (k : string) (f : ComponentSchema),
           (k, f) ∈ schema sc ->
           doc_data doc' !! k
           = Some (getYjsValFromParsedValue f
                     match item with
                     | not_found => getInitialPropsValue f
                     | found d => record_get (item_initialState d) k
                     end))
        /\ (forall k : string, k ∉ (schema sc).*1 -> doc_data doc' !! k = None)
        /\ doc_transactions doc'
           = (doc_transactions doc ++ [seedOps sc item])%list)
    /\ (size (doc_data doc) <> 0 -> doc' = doc).
Proof.
  intros Hnd doc. exists (seedIfEmpty sc item doc).
  split; [done|]. unfold seedIfEmpty. split.
  - intros Hsize. rewrite bool_decide_eq_true_2 by done.
    apply map_size_empty_inv in Hsize.
    repeat split.
    + intros k f Hin; simpl. apply ymap_set_all_in.
      * by rewrite seedOps_keys.
      * unfold seedOps.
        apply (list_elem_of_fmap_2
                 (fun kv : string * ComponentSchema =>
                    (kv.1,
                     getYjsValFromParsedValue kv.2
                       match item with
                       | not_found => getInitialPropsValue kv.2
                       | found d => record_get (item_initialState d) kv.1
                       end)) _ (k, f) Hin).
    + intros k Hk; simpl. rewrite ymap_set_all_notin.
      * by rewrite Hsize.
      * by rewrite seedOps_keys.
  - intros Hsize. by rewrite bool_decide_eq_false_2.
Qed.

(** What the reset sets a field to. *)
Lemma collab_onReset_field props (doc : YDoc) (k : string) (f : ComponentSchema) :
  NoDup (schema (singletonConfig props)).*1 ->
  (k, f) ∈ schema (singletonConfig props) ->
  doc_data (collab_onReset props doc).1 !! k
  = Some (getYjsValFromParsedValue f
            (nullish_coalesce
               match initialState props with
               | None => JUndefined
               | Some st => record_get st k
               end
               (getInitialPropsValue f))).
Proof.
  intros Hnd Hin; simpl. apply ymap_set_all_in.
  - by rewrite resetOps_keys.
  - unfold resetOps.
    apply (list_elem_of_fmap_2
             (fun kv : string * ComponentSchema =>
                (kv.1,
                 getYjsValFromParsedValue kv.2
                   (nullish_coalesce
                      match initialState props with
                      | None => JUndefined
                      | Some st => record_get st kv.1
                      end
                      (getInitialPropsValue kv.2)))) _ (k, f) Hin).
Qed.

(** The reset is one transaction, then the wait for [whenSynced], then the
    reload. *)
Lemma collab_onReset_steps props (doc : YDoc) :
  doc_transactions (collab_onReset props doc).1
  = (doc_transactions doc ++ [resetOps props])%list
  /\ (collab_onReset props doc).2
     = [reset_transact (resetOps props); reset_await_whenSynced; reset_reload].
Proof. done. Qed.

End Facts.

(** ** The properties on the small codec *)

Lemma draft_restored_on_open_witness :
  exists draft,
    openSingleton (codec := Example.codec) "settings" Example.settings "main"
      {[ draftKey "settings" := storedVal_to_js Example.draftB ]}
      (kind_loaded (Example.committed "A" "tree1")) yjs_unavailable
    = view_local
        (propsOf "settings" Example.settings (Example.committed "A" "tree1"))
        (Some draft)
    /\ st_state
         (m_state
            (mount
               (propsOf "settings" Example.settings
                  (Example.committed "A" "tree1"))
               (Some draft) 1800
               {[ draftKey "settings" := storedVal_to_js Example.draftB ]}))
       = Example.titled "B"
    /\ m_toast
         (mount
            (propsOf "settings" Example.settings
               (Example.committed "A" "tree1"))
            (Some draft) 1800
            {[ draftKey "settings" := storedVal_to_js Example.draftB ]})
       = Some {| toast_savedAt := 1700; toast_treeChanged := true |}.
Proof.
  apply (draft_restored_on_open (codec := Example.codec)
           "settings" Example.settings "main"
           {[ draftKey "settings" := storedVal_to_js Example.draftB ]}
           (Example.committed "A" "tree1") 1800
           (storedVal_to_js Example.draftB) Example.draftB Example.parsedB).
  - vm_compute. reflexivity.
  - vm_compute. reflexivity.
  - vm_compute. reflexivity.
Defined.

Lemma no_draft_initial_state_witness :
  let props := propsOf (codec := Example.codec) "settings" Example.settings
                 not_found in
  openSingleton "settings" Example.settings "main" ∅ (kind_loaded not_found)
    yjs_unavailable
  = view_local props None
  /\ st_state (m_state (mount props None 1800 ∅)) = Example.titled ""
  /\ m_toast (mount props None 1800 ∅) = None.
Proof.
  apply (no_draft_initial_state (codec := Example.codec)
           "settings" Example.settings "main" ∅ not_found 1800).
  vm_compute. reflexivity.
Defined.

(** C5 on a page opened with a restored draft and then reset. The reset
    leaves the page at its baseline with no draft in the store. When the
    item is then loaded from another tree, the wrapper mounts the page
    again with the draft of its first load: the page shows the draft's
    title B, not the title C committed on the new tree, announces a
    restored draft, and saves the draft again. Had the page stayed
    mounted, the tree key check of the render would have set the state to
    C; and a page opened afresh on the store finds no draft. *)
Lemma tree_change_after_reset_restores_draft :
  let store0 : DraftStore :=
    {[ ["singleton"; "settings"] := storedVal_to_js Example.draftB ]} in
  let props1 := propsOf (codec := Example.codec) "settings" Example.settings
                  (Example.committed "A" "tree1") in
  let props2 := propsOf (codec := Example.codec) "settings" Example.settings
                  (Example.committed "C" "tree2") in
  let opened := mounted props1 (Some Demo.restoredB) 1800 store0 in
  let reset := local_step opened (1801%Z, local_reset) in
  let switched :=
    local_step reset (1802%Z, local_item (Example.committed "C" "tree2")) in
  openSingleton "settings" Example.settings "main" store0
    (kind_loaded (Example.committed "A" "tree1")) yjs_unavailable
  = view_local props1 (Some Demo.restoredB)
  /\ st_state (lp_state reset) = Example.titled "A"
  /\ hasChanged (lp_props reset) (st_state (lp_state reset)) = false
  /\ lp_store reset !! ["singleton"; "settings"] = None
  /\ lp_props switched = props2
  /\ st_state (lp_state switched) = Example.titled "B"
  /\ st_state (lp_state switched) <> Example.titled "C"
  /\ m_toast (mount props2 (lp_draft reset) 1802 (lp_store reset))
     = Some {| toast_savedAt := 1700; toast_treeChanged := true |}
  /\ lp_store switched !! ["singleton"; "settings"]
     = Some (storedVal_to_js (autosaved props2 (Example.titled "B") 1802))
  /\ st_state (reconcile props2 (lp_state reset)) = Example.titled "C"
  /\ openSingleton "settings" Example.settings "feature" (lp_store reset)
       (kind_loaded (Example.committed "C" "tree2")) yjs_unavailable
     = view_local props2 None.
Proof.
  intros store0 props1 props2 opened reset switched.
  split; [reflexivity|]. split; [reflexivity|]. split; [reflexivity|].
  split; [reflexivity|]. split; [reflexivity|]. split; [reflexivity|].
  split.
  { change (st_state (lp_state switched)) with (Example.titled "B").
    intros H. apply (f_equal (fun m : Value => m !! "title")) in H.
    vm_compute in H. discriminate. }
  split; [reflexivity|].
  split; [reflexivity|]. split; reflexivity.
Qed.

Lemma invalid_draft_discarded_witness :
  let props := propsOf (codec := Example.codec) "settings" Example.settings
                 (Example.committed "A" "tree1") in
  let storeV2 : DraftStore := {[ ["singleton"; "settings"] := Example.draftV2 ]} in
  let storeOther : DraftStore :=
    {[ ["singleton"; "settings"] := storedVal_to_js Demo.otherFile ]} in
  (openSingleton "settings" Example.settings "main" storeV2
     (kind_loaded (Example.committed "A" "tree1")) yjs_unavailable
   = view_local props None
   /\ st_state (m_state (mount props None 1800 storeV2)) = Example.titled "A"
   /\ m_store (mount props None 1800 storeV2) !! ["singleton"; "settings"]
      <> Some Example.draftV2)
  /\ (openSingleton "settings" Example.settings "main" storeOther
        (kind_loaded (Example.committed "A" "tree1")) yjs_unavailable
      = view_local props None
      /\ st_state (m_state (mount props None 1800 storeOther))
         = Example.titled "A"
      /\ m_store (mount props None 1800 storeOther) !! ["singleton"; "settings"]
         = None).
Proof.
  intros props storeV2 storeOther. split.
  - destruct (invalid_draft_discarded (codec := Example.codec)
                "settings" Example.settings "main" storeV2
                (Example.committed "A" "tree1") 1800 Example.draftV2)
      as (Hview & Hstate & _ & _ & Hgone).
    + vm_compute. reflexivity.
    + right. left. eexists. split; [reflexivity|]. vm_compute. discriminate.
    + split; [exact Hview|]. split; [exact Hstate|].
      apply Hgone. vm_compute. reflexivity.
  - destruct (invalid_draft_discarded (codec := Example.codec)
                "settings" Example.settings "main" storeOther
                (Example.committed "A" "tree1") 1800
                (storedVal_to_js Demo.otherFile))
      as (Hview & Hstate & _ & Hstore & _).
    + vm_compute. reflexivity.
    + right. right. exists Demo.otherFile. split.
      * by apply storedValSchema_parse_encoded.
      * vm_compute. reflexivity.
    + split; [exact Hview|]. split; [exact Hstate|]. exact Hstore.
Defined.

Lemma draft_found_on_other_branch_witness :
  let props1 := propsOf (codec := Example.codec) "settings" Example.settings
                  (Example.committed "A" "tree1") in
  let props2 := propsOf (codec := Example.codec) "settings" Example.settings
                  (Example.committed "C" "tree2") in
  let store' := autosaveEffect props1 (Example.titled "B") 1700 ∅ in
  draftKey "settings" = ["singleton"; "settings"]
  /\ (exists draft1,
        openSingleton "settings" Example.settings "main" ∅
          (kind_loaded (Example.committed "A" "tree1")) yjs_unavailable
        = view_local props1 draft1)
  /\ exists draft,
       openSingleton "settings" Example.settings "feature" store'
         (kind_loaded (Example.committed "C" "tree2")) yjs_unavailable
       = view_local props2 (Some draft)
       /\ st_state (m_state (mount props2 (Some draft) 1800 store'))
          = Example.titled "B"
       /\ m_toast (mount props2 (Some draft) 1800 store')
          = Some {| toast_savedAt := 1700; toast_treeChanged := true |}.
Proof.
  apply (draft_found_on_other_branch (codec := Example.codec)
           "settings" Example.settings "main" "feature" ∅ ∅
           (Example.committed "A" "tree1") (Example.committed "C" "tree2")
           (Example.titled "B") 1700 1800 Example.parsedB).
  - vm_compute. reflexivity.
  - vm_compute. reflexivity.
Defined.

Lemma submit_while_loading_is_noop_witness :
  let s := run (codec := Example.codec) Example.env
             (initialPage (Example.titled "B"))
             [step_event (ev_submit true)] in
  let ys := [ step_event (ev_submit true);
              step_edit (fun _ => Example.titled "C");
              step_event (ev_submit true);
              step_event ev_action_reset ] in
  onCreate (innerProps Example.env s) = []
  /\ newBranchDialog (innerProps Example.env s) = None
  /\ forkDialog (innerProps Example.env s) = None
  /\ co_sent (ps_coordinator (run Example.env s ys)) = co_sent (ps_coordinator s)
  /\ co_result (ps_coordinator (run Example.env s ys)) = loading
  /\ co_inFlight (ps_coordinator (run Example.env s ys)) = 1
  /\ forall zs,
       co_inFlight
         (ps_coordinator
            (run Example.env (initialPage (Example.titled "B")) zs)) <= 1.
Proof.
  apply (submit_while_loading_is_noop (codec := Example.codec) Example.env
           (Example.titled "B") [step_event (ev_submit true)]
           [ step_event (ev_submit true);
             step_edit (fun _ => Example.titled "C");
             step_event (ev_submit true);
             step_event ev_action_reset ]).
  - vm_compute. reflexivity.
  - vm_compute. reflexivity.
Defined.

Lemma new_branch_retry_witness :
  let rejected :=
    run (codec := Example.codec) Example.env (initialPage (Example.titled "B"))
      [ step_event (ev_submit true);
        step_response (BranchDiverged "stale" "abc123") ] in
  let edited :=
    run Example.env rejected [ step_edit (fun _ => Example.titled "C") ] in
  let p := innerProps Example.env edited in
  let retried :=
    step Example.env edited (step_event (ev_newBranch_create "feature-x")) in
  let serialized := [ ("content/settings.yaml", String.list_byte_of_string "B") ] in
  ps_state edited = Example.titled "C"
  /\ updateResult p = needs_new_branch "stale" "abc123"
  /\ newBranchDialog p = Some (CreateBranchDuringUpdateDialog "def456" "stale")
  /\ handle p (ev_newBranch_create "feature-x")
     = [ call_router_push "/keystatic/branch/feature-x/singleton/settings";
         call_onUpdate (Some {| branch := "feature-x"; sha := "def456" |}) ]
  /\ co_result (ps_coordinator retried) = loading
  /\ co_sent (ps_coordinator retried)
     = [ {| req_branch := "main"; req_sha := "def456";
            req_additions := serialized; req_deletions := [] |};
         {| req_branch := "feature-x"; req_sha := "def456";
            req_additions := serialized; req_deletions := [] |} ].
Proof.
  split; [reflexivity|].
  apply (new_branch_retry (codec := Example.codec) Example.env
           (Example.titled "B") "stale" "abc123" "feature-x"
           [fun _ => Example.titled "C"]).
  - vm_compute. reflexivity.
  - vm_compute. reflexivity.
Defined.

(** C6, as the claim has it, fails: the update result carries the commit
    [abc123] and the page's base commit is [def456]; the dialog offers to
    branch from [def456], and the retry does not call [update] with
    [abc123]. *)
Lemma new_branch_retry_not_from_branchOid :
  let rejected :=
    run (codec := Example.codec) Example.env (initialPage (Example.titled "B"))
      [ step_event (ev_submit true);
        step_response (BranchDiverged "stale" "abc123") ] in
  let p := innerProps Example.env rejected in
  updateResult p = needs_new_branch "stale" "abc123"
  /\ newBranchDialog p <> Some (CreateBranchDuringUpdateDialog "abc123" "stale")
  /\ ~ In (call_onUpdate (Some {| branch := "feature-x"; sha := "abc123" |}))
          (handle p (ev_newBranch_create "feature-x")).
Proof.
  vm_compute. split; [reflexivity|]. split.
  - discriminate.
  - intros [H|[H|[]]]; discriminate.
Qed.

Lemma seed_on_first_open_witness :
  exists doc' : YDoc (codec := Example.codec),
    mapData_callback (yjs_ready ∅)
      (kind_loaded (Example.committed "dark" "tree1")) "main/settings"
      Example.settings
    = (yjs_ready {[ "main/settings" := doc' ]}, Ok (Ready (Some doc')))
    /\ doc_data doc' = {[ "title" := JStr "dark" ]}
    /\ doc_transactions doc' = [[("title", JStr "dark")]].
Proof.
  destruct (seed_on_first_open (codec := Example.codec) Example.settings
              (Example.committed "dark" "tree1") ∅ "main/settings")
    as (doc' & Hcall & Hseed & _).
  - vm_compute. apply NoDup_singleton.
  - exists doc'. split; [exact Hcall|].
    destruct (Hseed eq_refl) as (Hfields & Hrest & Htx).
    split; [|exact Htx].
    apply map_eq. intros k.
    destruct (decide (k = "title")) as [->|Hne].
    + rewrite (Hfields "title" (Example.text "")); [done|].
      apply list_elem_of_singleton. reflexivity.
    + rewrite lookup_singleton_ne by done. apply Hrest.
      intros Hin. apply list_elem_of_singleton in Hin. done.
Defined.

(** C9 at an entry committed with a null field: the collaborative reset
    sets [count] to the schema's default 5, while the committed value is
    null; the seeding of the document and the reset of the local page both
    take the committed null. The reset is one transaction, and the reload
    comes after the wait for [whenSynced]. *)
Lemma collab_reset_null_field_takes_default :
  let props := propsOf (codec := Example.codec) "counter" Example.counter
                 Example.counterItem in
  initialState props = Some {[ "count" := JNull ]}
  /\ doc_data (collab_onReset props new_YDoc).1 !! "count" = Some (JNum 5)
  /\ doc_data (seedIfEmpty Example.counter Example.counterItem new_YDoc)
       !! "count"
     = Some JNull
  /\ st_state (onReset props) !! "count" = Some JNull
  /\ (collab_onReset props new_YDoc).2
     = [ reset_transact (codec := Example.codec) [("count", JNum 5)];
         reset_await_whenSynced;
         reset_reload ].
Proof.
  intros props. split; [|split; [|split; [|split]]].
  - reflexivity.
  - vm_compute; reflexivity.
  - vm_compute; reflexivity.
  - vm_compute; reflexivity.
  - reflexivity.
Qed.

(** * Further properties *)

(** ** The validation of stored drafts *)

Lemma z_map_entries_inv (entries : list (unknown * unknown))
    (es : list (string * list byte)) :
  z_map_entries entries = Ok es
  <-> entries
      = map (fun kv : string * list byte => (JStr kv.1, JUint8Array kv.2)) es.
Proof.
  split.
  - revert es. induction entries as [|[k v] entries IH]; intros es H.
    + simpl in H. by injection H as <-.
    + simpl in H.
      destruct k; try discriminate. destruct v; try discriminate.
      simpl in H.
      destruct (z_map_entries entries) as [es'|] eqn:E; try discriminate.
      simpl in H. injection H as <-. simpl. by rewrite (IH es' eq_refl).
  - intros ->. apply z_map_entries_encoded.
Qed.

(** X1: a record written for a draft reads back through [storedValSchema]
    as itself exactly when its version tag is 1. *)
Theorem stored_draft_round_trip (d : StoredVal) :
  storedValSchema_parse (storedVal_to_js d) = Ok d <-> version d = 1%Z.
Proof.
  split.
  - intros H. apply storedValSchema_parse_version in H as (fields & [= <-] & Hv).
    simpl in Hv. by injection Hv.
  - apply storedValSchema_parse_encoded.
Qed.

(** X2: [storedValSchema] accepts exactly the objects whose [version] is
    the number 1, whose [savedAt] is a valid date, whose [beforeTreeKey]
    is a string or undefined, and whose [files] is a map from strings to
    byte arrays; what it answers holds those four values. *)
Theorem storedValSchema_accepts (raw : unknown) (d : StoredVal) :
  storedValSchema_parse raw = Ok d
  <-> exists (fields : list (string * unknown)) (es : list (string * list byte)),
        raw = JObject fields
        /\ get_prop fields "version" = JNum 1
        /\ get_prop fields "savedAt" = JDate (Some (savedAt d))
        /\ get_prop fields "beforeTreeKey" = option_string_to_js (beforeTreeKey d)
        /\ get_prop fields "files"
           = JMap (map (fun kv : string * list byte =>
                          (JStr kv.1, JUint8Array kv.2)) es)
        /\ version d = 1%Z
        /\ files d = js_new_map es.
Proof.
  split.
  - intros H.
    destruct (storedValSchema_parse_version raw d H) as (fields & -> & Hv).
    unfold storedValSchema_parse in H. rewrite Hv in H. simpl in H.
    destruct (get_prop fields "savedAt") as [| | | | |[t|]| | | |] eqn:Ht;
      try discriminate.
    simpl in H.
    destruct (get_prop fields "beforeTreeKey") as [| | | |k| | | | |] eqn:Hk;
      try discriminate; simpl in H;
      (destruct (get_prop fields "files") as [| | | | | | | |entries|] eqn:Hf;
       try discriminate; simpl in H;
       destruct (z_map_entries entries) as [es|] eqn:He; try discriminate;
       simpl in H; injection H as <-;
       apply z_map_entries_inv in He as ->;
       exists fields, es; simpl; by repeat split).
  - intros (fields & es & -> & Hv & Ht & Hk & Hf & Hd & Hfiles).
    unfold storedValSchema_parse. rewrite Hv, Ht, Hk, Hf. simpl.
    rewrite z_string_optional_encoded. simpl.
    rewrite z_map_entries_encoded. simpl.
    destruct d as [v t k f]. simpl in *. by subst.
Qed.

Lemma get_prop_cons_ne (k k' : string) (v : unknown)
    (fields : list (string * unknown)) :
  k <> k' -> get_prop ((k, v) :: fields) k' = get_prop fields k'.
Proof. intros H. simpl. by rewrite bool_decide_eq_false_2. Qed.

(** X3: a property under a name other than the four of the schema does
    not change what [storedValSchema] answers. *)
Theorem storedValSchema_strips_unknown_keys (k : string) (v : unknown)
    (fields : list (string * unknown)) :
  k ∉ ["version"; "savedAt"; "beforeTreeKey"; "files"] ->
  storedValSchema_parse (JObject ((k, v) :: fields))
  = storedValSchema_parse (JObject fields).
Proof.
  intros Hk. unfold storedValSchema_parse.
  rewrite !get_prop_cons_ne; [done|..]; intros ->; apply Hk; set_solver.
Qed.

(** ** The files of a draft *)

(** X4: the draft's file map has an entry exactly for the paths the
    serialiser wrote, and for a path written more than once it holds the
    contents written last. *)
Theorem autosaved_files {codec : Codec} (props : SingletonPageProps)
    (state : Value) (now : Z) (path : string) (contents : list byte)
    (earlier later : list (string * list byte)) :
  serializeEntryToFiles (getSingletonPath (singleton props))
    (schema (singletonConfig props)) state
  = (earlier ++ (path, contents) :: later)%list ->
  path ∉ later.*1 ->
  files (autosaved props state now) !! path = Some contents
  /\ forall other : string,
       is_Some (files (autosaved props state now) !! other)
       <-> other ∈ ((earlier ++ (path, contents) :: later)%list).*1.
Proof.
  intros Hser Hlast. unfold autosaved; simpl. rewrite Hser. split.
  - unfold js_new_map. rewrite foldl_app. simpl.
    rewrite js_new_map_lookup_notin by done. apply lookup_insert_eq.
  - intros other. apply js_new_map_is_Some.
Qed.

Section MoreFacts.

Context {codec : Codec}.

Implicit Types (props : SingletonPageProps) (st : LocalState).
Implicit Types (store : DraftStore) (sc : SingletonConfig) (item : ItemData).
Implicit Types (pg : LocalPage).

(** ** The autosave effect *)

(** X5: a run of the autosave effect supersedes the run before it for the
    same singleton: whatever the earlier run saved or deleted, and under
    whichever tree key, the store ends as if only the later run had
    happened. In particular running the effect twice is running it
    once. *)
Theorem autosave_supersedes props (props0 : SingletonPageProps)
    (state state0 : Value) (now now0 : Z) store :
  singleton props0 = singleton props ->
  autosaveEffect props state now (autosaveEffect props0 state0 now0 store)
  = autosaveEffect props state now store.
Proof.
  intros Hname. unfold autosaveEffect, setDraft, delDraft. rewrite Hname.
  destruct (hasChanged props0 state0), (hasChanged props state).
  - apply insert_insert_eq.
  - apply delete_insert_eq.
  - apply insert_delete_eq.
  - apply delete_delete_eq.
Qed.

(** X6: the autosave effect of one singleton leaves the drafts of every
    other singleton, and every record under another kind of key, as they
    were. *)
Theorem autosave_keeps_other_drafts props (state : Value) (now : Z) store
    (key : list string) :
  key <> ["singleton"; singleton props] ->
  getDraft (autosaveEffect props state now store) key = getDraft store key.
Proof.
  intros Hkey. unfold getDraft.
  by rewrite autosaveEffect_other.
Qed.

Lemma autosave_when_creating_lookup props (state : Value) (now : Z) store :
  initialState props = None ->
  autosaveEffect props state now store !! draftKey (singleton props)
  = Some (storedVal_to_js (autosaved props state now)).
Proof.
  intros Hnull. rewrite autosaveEffect_lookup.
  unfold hasChanged, isCreating. rewrite Hnull.
  by rewrite orb_true_r.
Qed.

(** X7: while the entry does not exist ([initialState] is null), every run
    of the autosave effect writes a draft, whatever the state is; it never
    deletes one, and what it wrote reads back as a valid draft. *)
Theorem autosave_when_creating props (state : Value) (now : Z) store :
  initialState props = None ->
  let store' := autosaveEffect props state now store in
  store' !! draftKey (singleton props)
  = Some (storedVal_to_js (autosaved props state now))
  /\ storedValSchema_parse (getDraft store' (draftKey (singleton props)))
     = Ok (autosaved props state now).
Proof.
  intros Hnull store'.
  pose proof (autosave_when_creating_lookup props state now store Hnull) as H.
  split; [done|].
  unfold getDraft, store'. rewrite H.
  change (default JUndefined (Some ?x)) with x.
  by apply storedValSchema_parse_encoded.
Qed.

(** ** The local page over time *)

Lemma reconcile_treeKey props st :
  st_localTreeKey (reconcile props st) = localTreeKey props.
Proof.
  unfold reconcile. destruct (decide (st_localTreeKey st <> localTreeKey props)).
  - done.
  - by apply dec_stable.
Qed.

Lemma rerender_mirrors pg st (now : Z) store :
  draft_mirrors_state (rendered pg (rerender (lp_props pg) st now store)).
Proof.
  unfold draft_mirrors_state, rendered, rerender; simpl. split.
  - apply reconcile_treeKey.
  - rewrite autosaveEffect_lookup.
    destruct (hasChanged _ (st_state (reconcile _ st))); [|done].
    split; [done|]. by exists now.
Qed.

Lemma mounted_mirrors props (draft : option Draft) (now : Z) store :
  draft_mirrors_state (mounted props draft now store).
Proof.
  unfold draft_mirrors_state, mounted; simpl. split.
  - apply reconcile_treeKey.
  - rewrite autosaveEffect_lookup.
    destruct (hasChanged props _); [|done].
    split; [done|]. by exists now.
Qed.

Lemma local_step_mirrors pg (e : Z * LocalEvent) :
  draft_mirrors_state pg -> draft_mirrors_state (local_step pg e).
Proof.
  intros Hpg. unfold local_step. destruct e as [now [f| | |item]]; simpl.
  - apply rerender_mirrors.
  - done.
  - destruct (hasChanged _ _); [apply rerender_mirrors | done].
  - apply mounted_mirrors.
Qed.

Lemma local_step_singleton pg (e : Z * LocalEvent) :
  singleton (lp_props (local_step pg e)) = singleton (lp_props pg)
  /\ singletonConfig (lp_props (local_step pg e)) = singletonConfig (lp_props pg).
Proof.
  unfold local_step. destruct e as [now [f| | |item]]; simpl;
    [done|done| |done].
  by destruct (hasChanged _ _).
Qed.

Lemma local_run_mirrors (es : list (Z * LocalEvent)) pg :
  draft_mirrors_state pg ->
  draft_mirrors_state (local_run pg es)
  /\ singleton (lp_props (local_run pg es)) = singleton (lp_props pg)
  /\ singletonConfig (lp_props (local_run pg es)) = singletonConfig (lp_props pg).
Proof.
  revert pg. induction es as [|e es IH]; intros pg Hpg; [done|].
  unfold local_run; simpl. fold (local_run (local_step pg e) es).
  destruct (IH (local_step pg e) (local_step_mirrors pg e Hpg))
    as (Hm & Hs & Hc).
  destruct (local_step_singleton pg e) as [Hs' Hc'].
  split; [done|]. split; congruence.
Qed.

(** X8: from the first render on, through any edits, resets and reloads
    of the item, the page's state is under the tree key of its props, and
    the draft store holds the singleton's draft exactly when [hasChanged]:
    then it is the record of the current state under the current tree
    key, saved at some time. *)
Theorem draft_store_mirrors_page props (draft : option Draft) (now : Z) store
    (es : list (Z * LocalEvent)) :
  let pg := local_run (mounted props draft now store) es in
  singleton (lp_props pg) = singleton props
  /\ st_localTreeKey (lp_state pg) = localTreeKey (lp_props pg)
  /\ match lp_store pg !! draftKey (singleton props) with
     | Some raw =>
         hasChanged (lp_props pg) (st_state (lp_state pg)) = true
         /\ exists t,
              raw = storedVal_to_js
                      (autosaved (lp_props pg) (st_state (lp_state pg)) t)
     | None => hasChanged (lp_props pg) (st_state (lp_state pg)) = false
     end.
Proof.
  intros pg.
  destruct (local_run_mirrors es _ (mounted_mirrors props draft now store))
    as ([Hkey Hstore] & Hs & _).
  fold pg in Hkey, Hstore, Hs. simpl in Hs.
  split; [done|]. split; [done|]. by rewrite <- Hs.
Qed.

(** X9: the reset action on an existing entry puts the committed value
    back and, when the change detector finds the committed value equal to
    itself, removes the draft; while nothing has changed the action is
    disabled and does nothing. *)
Theorem local_reset_removes_draft pg (now : Z) (v : Value) :
  initialState (lp_props pg) = Some v ->
  useHasChanged (Some v) v (schema (singletonConfig (lp_props pg))) = false ->
  let pg' := local_step pg (now, local_reset) in
  if hasChanged (lp_props pg) (st_state (lp_state pg))
  then st_state (lp_state pg') = v
       /\ lp_store pg' !! draftKey (singleton (lp_props pg)) = None
  else pg' = pg.
Proof.
  intros Hinit Hsame pg'. unfold pg', local_step; simpl.
  destruct (hasChanged (lp_props pg) (st_state (lp_state pg))); [|done].
  unfold rendered, rerender; simpl.
  rewrite reconcile_same by done.
  rewrite autosaveEffect_lookup.
  unfold onReset, committedOrDefault, hasChanged, isCreating; simpl.
  rewrite Hinit. split; [done|]. by rewrite Hsame.
Qed.

(** X10: when a newly loaded item reaches the wrapper, the page is
    mounted anew. Whatever edits it held are dropped; it starts from the
    draft it was first opened with, if there was one, and else from the
    newly committed value (the schema's default when the entry does not
    exist), under the item's tree key. The store then holds the draft of
    that state when [hasChanged], and none otherwise. *)
Theorem item_reload_remounts pg (now : Z) item :
  let name := singleton (lp_props pg) in
  let sc := singletonConfig (lp_props pg) in
  let pg' := local_step pg (now, local_item item) in
  let start :=
    match lp_draft pg with
    | Some draft => draft_state draft
    | None =>
        match item with
        | not_found => getInitialPropsValue_object (schema sc)
        | found d => item_initialState d
        end
    end in
  lp_props pg' = propsOf name sc item
  /\ lp_draft pg' = lp_draft pg
  /\ st_state (lp_state pg') = start
  /\ st_localTreeKey (lp_state pg')
     = match item with
       | not_found => None
       | found d => item_localTreeKey d
       end
  /\ lp_store pg' !! ["singleton"; name]
     = if hasChanged (propsOf name sc item) start
       then Some (storedVal_to_js (autosaved (propsOf name sc item) start now))
       else None.
Proof.
  intros name sc pg' start.
  change (lp_state pg')
    with (m_state (mount (propsOf name sc item) (lp_draft pg) now (lp_store pg))).
  change (lp_store pg')
    with (m_store (mount (propsOf name sc item) (lp_draft pg) now (lp_store pg))).
  assert (st_state
            (m_state (mount (propsOf name sc item) (lp_draft pg) now (lp_store pg)))
          = start) as Hstart.
  { rewrite mount_state. unfold start, useState_initial, committedOrDefault.
    by destruct (lp_draft pg), item. }
  split; [done|]. split; [done|]. split; [done|]. split.
  - rewrite mount_state. by destruct item.
  - rewrite <- Hstart. unfold mount; simpl.
    apply (autosaveEffect_lookup (propsOf name sc item)).
Qed.

(** X11: opening a singleton that does not exist yet, with no draft,
    writes a draft of the schema's default value on the first render; if
    that draft decodes, the next open of the still missing singleton
    starts from it and shows the draft-restored toast, without the
    tree-changed warning. *)
Theorem creating_leaves_draft (name : string) sc (currentBranch : string)
    store (now later : Z) (parsed : ParsedEntry) :
  let props := propsOf name sc not_found in
  let store' := m_store (mount props None now store) in
  parseEntry (getSingletonPath name) (schema sc)
    (js_new_map
       (serializeEntryToFiles (getSingletonPath name) (schema sc)
          (getInitialPropsValue_object (schema sc))))
  = Ok parsed ->
  exists draft,
    openSingleton name sc currentBranch store' (kind_loaded not_found)
      yjs_unavailable
    = view_local props (Some draft)
    /\ draft_state draft = parsed_initialState parsed
    /\ m_toast (mount props (Some draft) later store')
       = Some {| toast_savedAt := now; toast_treeChanged := false |}.
Proof.
  intros props store' Hparsed.
  assert (store' !! draftKey name
          = Some (storedVal_to_js
                    (autosaved props (getInitialPropsValue_object (schema sc)) now)))
    as Hraw.
  { unfold store', mount; simpl.
    change (draftKey name) with (draftKey (singleton props)).
    by apply autosave_when_creating_lookup. }
  eexists. split; [|split].
  - rewrite openSingleton_local.
    rewrite (draftData_callback_valid name sc store' _
               (autosaved props (getInitialPropsValue_object (schema sc)) now)
               parsed Hraw); [done| |done].
    by apply storedValSchema_parse_encoded.
  - done.
  - by rewrite mount_toast_draft.
Qed.

(** X12: whenever the page has come back to its baseline ([hasChanged] is
    false), the store holds no draft of the singleton: opening it again,
    on any branch and item, starts without a draft. *)
Theorem baseline_leaves_no_draft props (draft : option Draft) (now : Z) store
    (es : list (Z * LocalEvent)) (currentBranch : string) item :
  let pg := local_run (mounted props draft now store) es in
  hasChanged (lp_props pg) (st_state (lp_state pg)) = false ->
  lp_store pg !! draftKey (singleton props) = None
  /\ openSingleton (singleton props) (singletonConfig props) currentBranch
       (lp_store pg) (kind_loaded item) yjs_unavailable
     = view_local (propsOf (singleton props) (singletonConfig props) item) None.
Proof.
  intros pg Hbase.
  destruct (local_run_mirrors es _ (mounted_mirrors props draft now store))
    as ([_ Hstore] & Hs & _).
  fold pg in Hstore, Hs. simpl in Hs. rewrite Hs in Hstore.
  assert (lp_store pg !! draftKey (singleton props) = None) as Hnone.
  { destruct (lp_store pg !! draftKey (singleton props)); [|done].
    destruct Hstore as [Htrue _]. congruence. }
  split; [done|].
  rewrite openSingleton_local.
  by rewrite (draftData_callback_absent _ _ _ Hnone).
Qed.

End MoreFacts.

Section WrapperFacts.

Context {codec : Codec}.

Implicit Types (sc : SingletonConfig) (item : ItemData) (doc : YDoc).

(** ** The wrapper *)

(** X13: the wrapper shows an error exactly for an error of the item load
    or, failing that, of the collaboration map load, with its message; a
    failed draft load never shows as an error. *)
Theorem wrapper_error_view (name : string) sc (itemData : DataState ItemData)
    (draftData : DataState Draft) (mapData : DataState (option YDoc))
    (message : string) :
  SingletonPageWrapper name sc itemData draftData mapData = view_error message
  <-> itemData = kind_error message
      \/ ((forall m, itemData <> kind_error m) /\ mapData = kind_error message).
Proof.
  split.
  - destruct itemData as [|item|m], mapData as [|[map|]|m'], draftData;
      simpl; intros H; try discriminate; injection H as <-; auto; right;
      by split.
  - intros [->|[Hitem ->]]; [done|].
    destruct itemData as [|item|m]; [done|done|]. by destruct (Hitem m).
Qed.

(** X14: when the collaboration data is ready and the item is loaded, the
    wrapper renders the collaborative page on the document under the
    branch's key, seeded if it was empty, whatever the draft store holds:
    a stored draft is not used in collaborative mode. *)
Theorem collab_view_ignores_draft (name : string) sc (currentBranch : string)
    (store : DraftStore) item (docs : gmap string YDoc) :
  openSingleton name sc currentBranch store (kind_loaded item) (yjs_ready docs)
  = view_collab (propsOf name sc item)
      (seedIfEmpty sc item
         match docs !! collabKey currentBranch name with
         | Some doc => doc_load doc
         | None => new_YDoc
         end).
Proof.
  unfold openSingleton. cbn [mapData_callback snd useData].
  destruct (draftData_callback store name sc) as [draft|m];
    reflexivity.
Qed.

(** X26: the draft load answers a draft exactly when the store holds,
    under the singleton's key, a record that passes [storedValSchema] and
    whose files [parseEntry] decodes; the draft is then the decoded state
    with the record's [savedAt] and [beforeTreeKey]. Anything else, a
    missing or falsy record included, is a failed load. *)
Theorem draft_load_succeeds (store : DraftStore) (name : string) sc
    (draft : Draft) :
  draftData_callback store name sc = Ok draft
  <-> exists (raw : unknown) (stored : StoredVal) (parsed : ParsedEntry),
        store !! draftKey name = Some raw
        /\ storedValSchema_parse raw = Ok stored
        /\ parseEntry (getSingletonPath name) (schema sc) (files stored)
           = Ok parsed
        /\ draft = {| draft_state := parsed_initialState parsed;
                      draft_savedAt := savedAt stored;
                      draft_treeKey := beforeTreeKey stored |}.
Proof.
  split.
  - unfold draftData_callback, getDraft.
    destruct (store !! draftKey name) as [raw|] eqn:Hraw; simpl; [|done].
    destruct (js_truthy raw); simpl; [|done].
    destruct (storedValSchema_parse raw) as [stored|] eqn:Hs; simpl; [|done].
    destruct (parseEntry _ _ _) as [parsed|] eqn:Hp; simpl; [|done].
    intros [= <-]. by exists raw, stored, parsed.
  - intros (raw & stored & parsed & Hraw & Hs & Hp & ->).
    by apply (draftData_callback_valid name sc store raw stored parsed).
Qed.

(** ** The collaborative document *)

Lemma ymap_set_all_snoc (ops : list (string * YVal)) (kv : string * YVal)
    (m : gmap string YVal) :
  ymap_set_all (ops ++ [kv]) m = <[kv.1 := kv.2]> (ymap_set_all ops m).
Proof. unfold ymap_set_all. by rewrite foldl_app. Qed.

Lemma ymap_set_all_nonempty (ops : list (string * YVal)) (m : gmap string YVal) :
  ops <> [] -> size (ymap_set_all ops m) <> 0.
Proof.
  destruct ops as [|kv ops _] using rev_ind; [done|]. intros _.
  rewrite ymap_set_all_snoc. intros Hsize.
  apply map_size_empty_inv in Hsize.
  by apply insert_non_empty in Hsize.
Qed.

Lemma seedOps_nil sc item : seedOps sc item = [] -> schema sc = [].
Proof. unfold seedOps. by destruct (schema sc). Qed.

Lemma seedIfEmpty_nonempty sc item doc :
  schema sc <> [] -> size (doc_data (seedIfEmpty sc item doc)) <> 0.
Proof.
  intros Hsc. unfold seedIfEmpty. case_bool_decide as Hsize; [|done].
  simpl. apply ymap_set_all_nonempty. intros H. by apply seedOps_nil in H.
Qed.

(** X15: with a schema of at least one field, a document is seeded at most
    once: after a first open, a second open under the same key, even
    against another committed item, answers the same document with the
    same data and the same transactions. *)
Theorem second_open_does_not_reseed sc (item item' : ItemData)
    (docs : gmap string YDoc) (key : string) :
  schema sc <> [] ->
  exists (docs1 : gmap string YDoc) (doc1 : YDoc),
    mapData_callback (yjs_ready docs) (kind_loaded item) key sc
    = (yjs_ready docs1, Ok (Ready (Some doc1)))
    /\ mapData_callback (yjs_ready docs1) (kind_loaded item') key sc
       = (yjs_ready (<[key := doc_load doc1]> docs1),
          Ok (Ready (Some (doc_load doc1))))
    /\ doc_data (doc_load doc1) = doc_data doc1
    /\ doc_transactions (doc_load doc1) = doc_transactions doc1.
Proof.
  intros Hsc.
  set (doc1 := seedIfEmpty sc item
                 match docs !! key with
                 | Some doc => doc_load doc
                 | None => new_YDoc
                 end).
  exists (<[key := doc1]> docs), doc1.
  split; [done|]. split; [|done].
  unfold mapData_callback. rewrite lookup_insert_eq.
  assert (seedIfEmpty sc item' (doc_load doc1) = doc_load doc1) as ->; [|done].
  unfold seedIfEmpty. rewrite bool_decide_eq_false_2; [done|].
  simpl. by apply seedIfEmpty_nonempty.
Qed.


Lemma string_app_length (s t : string) :
  String.length (s +:+ t) = String.length s + String.length t.
Proof. induction s as [|c s IH]; simpl; [done|]. by rewrite IH. Qed.

Lemma string_app_inv_tail (s1 s2 t : string) : s1 +:+ t = s2 +:+ t -> s1 = s2.
Proof.
  revert s2. induction s1 as [|c s1 IH]; intros [|c2 s2] H; simpl in *.
  - done.
  - apply (f_equal String.length) in H.
    rewrite !string_app_length in H. simpl in H.
    rewrite ?string_app_length in H. lia.
  - apply (f_equal String.length) in H.
    rewrite !string_app_length in H. simpl in H.
    rewrite ?string_app_length in H. lia.
  - injection H as -> H. by rewrite (IH s2 H).
Qed.

(** X17: for one singleton the collaborative documents of two branches
    are under different keys, and on one branch so are the documents of
    two singletons. *)
Theorem collabKey_separates (branch1 branch2 name1 name2 : string) :
  (collabKey branch1 name1 = collabKey branch2 name1 -> branch1 = branch2)
  /\ (collabKey branch1 name1 = collabKey branch1 name2 -> name1 = name2).
Proof.
  unfold collabKey. split.
  - intros H. by apply string_app_inv_tail in H.
  - intros H. apply String.app_inj in H. by injection H.
Qed.

(** ** The collaborative reset *)



(** X18: the collaborative reset writes what seeding the document would
    write when the entry does not exist, and when it exists with no
    schema field committed as null or undefined. *)
Theorem reset_writes_the_seed (name : string) sc item :
  match item with
  | not_found => True
  | found d =>
      forall (k : string) (f : ComponentSchema),
        (k, f) ∈ schema sc ->
        is_nullish (record_get (item_initialState d) k) = false
  end ->
  resetOps (propsOf name sc item) = seedOps sc item.
Proof.
  intros Hitem. unfold resetOps, seedOps; simpl.
  apply map_ext_in. intros [k f] Hin; simpl. f_equal.
  destruct item as [|d]; [done|].
  unfold nullish_coalesce.
  rewrite (Hitem k f); [done|]. by apply list_elem_of_In.
Qed.


End WrapperFacts.

(** ** Replacing in strings *)

Lemma string_app_nil_r (s : string) : s +:+ "" = s.
Proof.
  induction s as [|c s IH]; [done|].
  change (String c s +:+ "") with (String c (s +:+ "")). by rewrite IH.
Qed.

Lemma prefix_app (p s : string) : String.prefix p (p +:+ s) = true.
Proof.
  induction p as [|c p IH]; simpl; [by destruct s|].
  by destruct (Ascii.ascii_dec c c).
Qed.

Lemma prefix_split (p s : string) :
  String.prefix p s = true -> s = p +:+ string_drop (String.length p) s.
Proof.
  revert s. induction p as [|c p IH]; intros s H; [done|].
  destruct s as [|c' s]; simpl in H; [done|].
  destruct (Ascii.ascii_dec c c') as [->|]; [|done].
  change (String c' s = String c' (p +:+ string_drop (String.length p) s)).
  f_equal. by apply IH.
Qed.

Lemma string_drop_app (p s : string) :
  string_drop (String.length p) (p +:+ s) = s.
Proof. induction p as [|c p IH]; simpl; [by destruct s|done]. Qed.

Lemma split_first_unfold (p s : string) :
  split_first p s
  = if String.prefix p s
    then Some (EmptyString, string_drop (String.length p) s)
    else match s with
         | EmptyString => None
         | String c s' =>
             match split_first p s' with
             | Some (before, after) => Some (String c before, after)
             | None => None
             end
         end.
Proof. by destruct s. Qed.

Lemma split_first_here (p s : string) :
  split_first p (p +:+ s) = Some ("", s).
Proof.
  rewrite split_first_unfold. by rewrite prefix_app, string_drop_app.
Qed.

Lemma split_first_skip (c0 : ascii) (p' pre rest : string) :
  contains_char c0 pre = false ->
  split_first (String c0 p') (pre +:+ rest)
  = match split_first (String c0 p') rest with
    | Some (before, after) => Some (pre +:+ before, after)
    | None => None
    end.
Proof.
  induction pre as [|c pre IH]; intros Hpre.
  - change ("" +:+ rest) with rest.
    by destruct (split_first (String c0 p') rest) as [[b a]|].
  - simpl in Hpre. apply orb_false_elim in Hpre as [Hc Hpre].
    change (String c pre +:+ rest) with (String c (pre +:+ rest)).
    rewrite split_first_unfold.
    assert (String.prefix (String c0 p') (String c (pre +:+ rest)) = false)
      as ->.
    { simpl. destruct (Ascii.ascii_dec c0 c) as [->|_]; [|done].
      by rewrite Ascii.eqb_refl in Hc. }
    rewrite (IH Hpre).
    by destruct (split_first (String c0 p') rest) as [[b a]|].
Qed.

Lemma split_first_absent (c0 : ascii) (p' s : string) :
  contains_char c0 s = false -> split_first (String c0 p') s = None.
Proof.
  intros H. rewrite <- (string_app_nil_r s).
  by rewrite split_first_skip.
Qed.

Lemma split_first_correct (p s before after : string) :
  split_first p s = Some (before, after) -> s = before +:+ p +:+ after.
Proof.
  revert before. induction s as [|c s IH]; intros before H;
    rewrite split_first_unfold in H.
  - destruct (String.prefix p "") eqn:E; [|done].
    injection H as <- <-. exact (prefix_split _ _ E).
  - destruct (String.prefix p (String c s)) eqn:E.
    + injection H as <- <-. exact (prefix_split _ _ E).
    + destruct (split_first p s) as [[b a]|]; [|done].
      injection H as <- <-.
      change (String c s = String c (b +:+ p +:+ a)).
      f_equal. by apply IH.
Qed.

Lemma getSubstitution_plain (matched before after template : string) :
  contains_char "$" template = false ->
  getSubstitution matched before after template = template.
Proof.
  induction template as [|c t IH]; intros H; [done|].
  simpl in H. apply orb_false_elim in H as [Hc Ht].
  cbn [getSubstitution]. rewrite Hc. by rewrite (IH Ht).
Qed.

Section HeaderFacts.

Context {codec : Codec}.

Implicit Types (sc : SingletonConfig) (p : InnerProps) (sh : Shell).

(** ** The preview link *)

(** X20: a [previewUrl] in which no [{] occurs is the preview link as it
    stands, on every branch. *)
Theorem previewHref_without_placeholder sc (currentBranch url : string) :
  previewUrl sc = Some url ->
  url <> "" ->
  contains_char "{" url = false ->
  previewHref sc currentBranch = Some url.
Proof.
  intros Hurl Hne Hno. unfold previewHref. rewrite Hurl.
  rewrite bool_decide_eq_false_2 by done.
  unfold js_replace. by rewrite split_first_absent.
Qed.

(** X21: in a [previewUrl] the first [{branch}] is replaced by the name of
    the current branch, and what follows it is kept as it is, further
    placeholders included, when the branch name has no dollar sign. *)
Theorem previewHref_replaces_first sc (currentBranch pre post : string) :
  previewUrl sc = Some (pre +:+ "{branch}" +:+ post) ->
  contains_char "{" pre = false ->
  contains_char "$" currentBranch = false ->
  previewHref sc currentBranch = Some (pre +:+ currentBranch +:+ post).
Proof.
  intros Hurl Hpre Hbranch. unfold previewHref. rewrite Hurl.
  rewrite bool_decide_eq_false_2 by (by destruct pre).
  unfold js_replace.
  rewrite split_first_skip by done.
  rewrite (split_first_here "{branch}" post).
  rewrite string_app_nil_r.
  by rewrite getSubstitution_plain.
Qed.

(** X22: on a branch named [$&] the preview link is the [previewUrl]
    unchanged: the replacement pattern stands for the matched placeholder
    itself. *)
Theorem previewHref_dollar_ampersand sc (url : string) :
  previewUrl sc = Some url ->
  url <> "" ->
  previewHref sc "$&" = Some url.
Proof.
  intros Hurl Hne. unfold previewHref. rewrite Hurl.
  rewrite bool_decide_eq_false_2 by done.
  unfold js_replace.
  destruct (split_first "{branch}" url) as [[before after]|] eqn:E; [|done].
  apply split_first_correct in E. cbn [getSubstitution Ascii.eqb Bool.eqb].
  simpl. by rewrite E.
Qed.

(** ** The menu *)

Lemma string_app_cons_ne (s : string) (c : ascii) (t : string) :
  s +:+ String c t <> "".
Proof. by destruct s. Qed.

Lemma viewHref_truthy sh p :
  href_truthy (viewHref sh p)
  = (isGitHubConfig p || sh_isCloudConfig sh) && singletonExists (page p).
Proof.
  unfold viewHref.
  destruct ((isGitHubConfig p || sh_isCloudConfig sh) && singletonExists (page p));
    [|done].
  simpl. rewrite bool_decide_eq_false_2; [done|].
  destruct (sh_dataLocation sh); apply string_app_cons_ne.
Qed.

(** X23: the menu of a page starts with the reset action and has each key
    once; every entry with a link has a non-empty link that opens in a new
    tab with [rel="noopener noreferrer"]. *)
Theorem menu_shape sh p :
  let menu := pageMenu sh p in
  NoDup (map action_key menu)
  /\ map action_key (take 1 menu) = ["reset"]
  /\ forall a : MenuAction,
       a ∈ menu ->
       action_href a = None
       \/ (action_href a <> Some ""
           /\ action_target a = Some "_blank"
           /\ action_rel a = Some "noopener noreferrer").
Proof.
  unfold pageMenu, menuActions.
  destruct (href_truthy (previewHref _ _)) eqn:Hp,
           (href_truthy (viewHref sh p)) eqn:Hv; simpl.
  all: split; [by apply (bool_decide_unpack (NoDup _))|]; split; [done|].
  all: intros a Ha; repeat (apply elem_of_cons in Ha as [->|Ha]); simpl;
    try (by left); try (by apply elem_of_nil in Ha).
  all: right; split; [|done]; intros E.
  all: try (rewrite E in Hp; simpl in Hp; done).
  all: rewrite E in Hv; simpl in Hv; done.
Qed.

(** X24: the menu has the action to view the file on GitHub exactly when
    the configuration is a GitHub or cloud one and the entry exists. *)
Theorem menu_view_action sh p :
  "view" ∈ map action_key (pageMenu sh p)
  <-> (isGitHubConfig p || sh_isCloudConfig sh) && singletonExists (page p)
      = true.
Proof.
  unfold pageMenu, menuActions. rewrite viewHref_truthy.
  destruct ((isGitHubConfig p || sh_isCloudConfig sh) && singletonExists (page p)),
           (href_truthy (previewHref _ _)); simpl; split; try done.
  all: try (intros _; by apply (bool_decide_unpack (_ ∈ _))).
  all: intros H; repeat (apply elem_of_cons in H as [H|H]; [done|]);
    by apply elem_of_nil in H.
Qed.

(** ** The calls of [update] *)

(** X25: [update] is called by a submit only while not loading, with a
    changed state that passes validation, and without options; by the
    branch dialog only on a needs-new-branch result, with the new branch
    and the base commit; by the fork dialog only on a needs-fork result
    under a GitHub configuration, without options; and by nothing else. *)
Theorem onUpdate_call_sites p (e : Event) (options : option UpdateOptions) :
  call_onUpdate options ∈ handle p e ->
  match e with
  | ev_submit _ =>
      options = None
      /\ updateResult p <> loading
      /\ inner_hasChanged p = true
      /\ clientSideValidateProp (schema (singletonConfig (page p)))
           (inner_state p) = true
  | ev_newBranch_create newBranch =>
      options = Some {| branch := newBranch; sha := baseCommit p |}
      /\ exists reason oid, updateResult p = needs_new_branch reason oid
  | ev_fork_create =>
      options = None /\ updateResult p = needs_fork /\ isGitHubConfig p = true
  | _ => False
  end.
Proof.
  destruct e as [fromForm|newBranch| | | |]; simpl.
  - destruct fromForm; [|by intros ?%elem_of_nil].
    unfold onCreate. case_bool_decide as Hl; simpl; [by intros ?%elem_of_nil|].
    destruct (inner_hasChanged p); simpl; [|by intros ?%elem_of_nil].
    destruct (clientSideValidateProp _ _); simpl.
    + intros [= <-]%list_elem_of_singleton. done.
    + by intros [=]%list_elem_of_singleton.
  - unfold newBranchDialog.
    destruct (updateResult p) eqn:E; simpl; try by intros ?%elem_of_nil.
    intros H. apply elem_of_cons in H as [[=]|H].
    apply list_elem_of_singleton in H as [= <-]. split; [done|]. eauto.
  - unfold newBranchDialog. destruct (updateResult p); simpl;
      try by intros ?%elem_of_nil.
    by intros [=]%list_elem_of_singleton.
  - unfold forkDialog. destruct (updateResult p); simpl;
      try by intros ?%elem_of_nil.
    destruct (isGitHubConfig p); simpl; [|by intros ?%elem_of_nil].
    by intros [= <-]%list_elem_of_singleton.
  - unfold forkDialog. destruct (updateResult p); simpl;
      try by intros ?%elem_of_nil.
    destruct (isGitHubConfig p); simpl; [|by intros ?%elem_of_nil].
    by intros [=]%list_elem_of_singleton.
  - destruct (inner_hasChanged p); simpl; [|by intros ?%elem_of_nil].
    by intros [=]%list_elem_of_singleton.
Qed.

End HeaderFacts.

(** ** The further properties on the small codec *)

Lemma storedValSchema_strips_unknown_keys_witness :
  storedValSchema_parse
    (JObject [ ("extra", JNull); ("version", JNum 1);
               ("savedAt", JDate (Some 1700%Z)); ("files", JMap []) ])
  = storedValSchema_parse
      (JObject [ ("version", JNum 1); ("savedAt", JDate (Some 1700%Z));
                 ("files", JMap []) ]).
Proof.
  apply (storedValSchema_strips_unknown_keys "extra" JNull).
  intros H. repeat (apply elem_of_cons in H as [H|H]; [discriminate|]).
  by apply elem_of_nil in H.
Defined.

Lemma autosaved_files_witness :
  let props := propsOf (codec := Example.codec) "settings" Example.settings
                 (Example.committed "A" "tree1") in
  files (autosaved props (Example.titled "B") 1700) !! "content/settings.yaml"
  = Some (String.list_byte_of_string "B")
  /\ forall other : string,
       is_Some (files (autosaved props (Example.titled "B") 1700) !! other)
       <-> other ∈ (([] ++ [("content/settings.yaml",
                             String.list_byte_of_string "B")])%list).*1.
Proof.
  apply (autosaved_files (codec := Example.codec)
           (propsOf "settings" Example.settings (Example.committed "A" "tree1"))
           (Example.titled "B") 1700 "content/settings.yaml"
           (String.list_byte_of_string "B") [] []).
  - vm_compute. reflexivity.
  - simpl. apply not_elem_of_nil.
Defined.

Lemma autosave_supersedes_witness :
  let props0 := propsOf (codec := Example.codec) "settings" Example.settings
                  (Example.committed "A" "tree1") in
  let props := propsOf (codec := Example.codec) "settings" Example.settings
                 (Example.committed "C" "tree2") in
  autosaveEffect props (Example.titled "C") 1800
    (autosaveEffect props0 (Example.titled "B") 1700 ∅)
  = autosaveEffect props (Example.titled "C") 1800 ∅.
Proof.
  apply (autosave_supersedes (codec := Example.codec)
           (propsOf "settings" Example.settings (Example.committed "C" "tree2"))
           (propsOf "settings" Example.settings (Example.committed "A" "tree1"))
           (Example.titled "C") (Example.titled "B") 1800 1700 ∅).
  reflexivity.
Defined.

Lemma autosave_keeps_other_drafts_witness :
  let props := propsOf (codec := Example.codec) "settings" Example.settings
                 (Example.committed "A" "tree1") in
  let store : DraftStore := {[ draftKey "counter" := Example.draftV2 ]} in
  getDraft (autosaveEffect props (Example.titled "B") 1700 store)
    (draftKey "counter")
  = getDraft store (draftKey "counter").
Proof.
  apply (autosave_keeps_other_drafts (codec := Example.codec)
           (propsOf "settings" Example.settings (Example.committed "A" "tree1"))
           (Example.titled "B") 1700
           {[ draftKey "counter" := Example.draftV2 ]} (draftKey "counter")).
  vm_compute. discriminate.
Defined.

Lemma autosave_when_creating_witness :
  let props := propsOf (codec := Example.codec) "settings" Example.settings
                 not_found in
  let store' := autosaveEffect props (Example.titled "") 1700 ∅ in
  store' !! draftKey "settings"
  = Some (storedVal_to_js (autosaved props (Example.titled "") 1700))
  /\ storedValSchema_parse (getDraft store' (draftKey "settings"))
     = Ok (autosaved props (Example.titled "") 1700).
Proof.
  apply (autosave_when_creating (codec := Example.codec)
           (propsOf "settings" Example.settings not_found)
           (Example.titled "") 1700 ∅).
  reflexivity.
Defined.

Lemma local_reset_removes_draft_witness :
  let props := propsOf (codec := Example.codec) "settings" Example.settings
                 (Example.committed "A" "tree1") in
  let pg := mounted props None 1700 ∅ in
  let edited := local_step pg (1701%Z, local_change (fun _ => Example.titled "B")) in
  let pg' := local_step edited (1702%Z, local_reset) in
  if hasChanged (lp_props edited) (st_state (lp_state edited))
  then st_state (lp_state pg') = Example.titled "A"
       /\ lp_store pg' !! draftKey "settings" = None
  else pg' = edited.
Proof.
  intros props pg edited.
  apply (local_reset_removes_draft (codec := Example.codec) edited 1702
           (Example.titled "A")).
  - reflexivity.
  - vm_compute. reflexivity.
Defined.

Lemma creating_leaves_draft_witness :
  let props := propsOf (codec := Example.codec) "settings" Example.settings
                 not_found in
  let store' := m_store (mount props None 1700 ∅) in
  exists draft,
    openSingleton "settings" Example.settings "main" store'
      (kind_loaded not_found) yjs_unavailable
    = view_local props (Some draft)
    /\ draft_state draft = Example.titled ""
    /\ m_toast (mount props (Some draft) 1800 store')
       = Some {| toast_savedAt := 1700; toast_treeChanged := false |}.
Proof.
  apply (creating_leaves_draft (codec := Example.codec) "settings"
           Example.settings "main" ∅ 1700 1800
           {| parsed_initialState := Example.titled "";
              parsed_initialFiles := ["content/settings.yaml"] |}).
  vm_compute. reflexivity.
Defined.

Lemma baseline_leaves_no_draft_witness :
  let props := propsOf (codec := Example.codec) "settings" Example.settings
                 (Example.committed "A" "tree1") in
  let pg :=
    local_run (mounted props None 1700 ∅)
      [ (1701%Z, local_change (fun _ => Example.titled "B"));
        (1702%Z, local_change (fun _ => Example.titled "A")) ] in
  lp_store pg !! draftKey "settings" = None
  /\ openSingleton "settings" Example.settings "feature" (lp_store pg)
       (kind_loaded (Example.committed "C" "tree2")) yjs_unavailable
     = view_local
         (propsOf "settings" Example.settings (Example.committed "C" "tree2"))
         None.
Proof.
  apply (baseline_leaves_no_draft (codec := Example.codec)
           (propsOf "settings" Example.settings (Example.committed "A" "tree1"))
           None 1700 ∅
           [ (1701%Z, local_change (fun _ => Example.titled "B"));
             (1702%Z, local_change (fun _ => Example.titled "A")) ]
           "feature" (Example.committed "C" "tree2")).
  vm_compute. reflexivity.
Defined.

Lemma second_open_does_not_reseed_witness :
  exists (docs1 : gmap string (YDoc (codec := Example.codec))) (doc1 : YDoc),
    mapData_callback (yjs_ready ∅)
      (kind_loaded (Example.committed "dark" "tree1")) "main/settings"
      Example.settings
    = (yjs_ready docs1, Ok (Ready (Some doc1)))
    /\ mapData_callback (yjs_ready docs1)
         (kind_loaded (Example.committed "light" "tree2")) "main/settings"
         Example.settings
       = (yjs_ready (<["main/settings" := doc_load doc1]> docs1),
          Ok (Ready (Some (doc_load doc1))))
    /\ doc_data (doc_load doc1) = doc_data doc1
    /\ doc_transactions (doc_load doc1) = doc_transactions doc1.
Proof.
  apply (second_open_does_not_reseed (codec := Example.codec)
           Example.settings (Example.committed "dark" "tree1")
           (Example.committed "light" "tree2") ∅ "main/settings").
  discriminate.
Defined.

Lemma reset_writes_the_seed_witness :
  resetOps (codec := Example.codec)
    (propsOf "settings" Example.settings (Example.committed "A" "tree1"))
  = seedOps Example.settings (Example.committed "A" "tree1").
Proof.
  apply (reset_writes_the_seed (codec := Example.codec) "settings"
           Example.settings (Example.committed "A" "tree1")).
  intros k f Hin. apply list_elem_of_singleton in Hin.
  injection Hin as -> ->. reflexivity.
Defined.

Lemma previewHref_without_placeholder_witness :
  previewHref (codec := Example.codec)
    {| label := "Settings"; schema := [];
       previewUrl := Some "https://example.com/preview" |} "main"
  = Some "https://example.com/preview".
Proof.
  apply (previewHref_without_placeholder (codec := Example.codec)).
  - reflexivity.
  - discriminate.
  - reflexivity.
Defined.

Lemma previewHref_replaces_first_witness :
  previewHref Demo.previewed "feature/x"
  = Some ("https://" +:+ "feature/x" +:+ ".example.com/{branch}").
Proof.
  apply (previewHref_replaces_first (codec := Example.codec) Demo.previewed
           "feature/x" "https://" ".example.com/{branch}").
  - reflexivity.
  - reflexivity.
  - reflexivity.
Defined.

Lemma previewHref_dollar_ampersand_witness :
  previewHref Demo.previewed "$&"
  = Some "https://{branch}.example.com/{branch}".
Proof.
  apply (previewHref_dollar_ampersand (codec := Example.codec) Demo.previewed).
  - reflexivity.
  - discriminate.
Defined.

Lemma onUpdate_call_sites_witness :
  Some {| branch := "feature-x"; sha := "def456" |}
  = Some {| branch := "feature-x";
            sha := baseCommit (Demo.inner (needs_new_branch "stale" "abc123")) |}
  /\ exists reason oid,
       updateResult (Demo.inner (needs_new_branch "stale" "abc123"))
       = needs_new_branch reason oid.
Proof.
  apply (onUpdate_call_sites (codec := Example.codec)
           (Demo.inner (needs_new_branch "stale" "abc123"))
           (ev_newBranch_create "feature-x")
           (Some {| branch := "feature-x"; sha := "def456" |})).
  simpl. apply elem_of_cons. right. apply elem_of_cons. by left.
Defined.
